(** * demo_2d_finite_Dirichlet_GMM: a shallow embedding and its properties

    The script draws a labelled 2-D point cloud from six Gaussians, fits a
    variational Bayesian Gaussian mixture to it call after call until the
    estimator reports convergence, and redraws contours and a weight bar
    chart after every call.

    Conventions of the embedding:
    - Python integers are [Z]; Python floats are rationals [Q], each decimal
      literal standing for the number it denotes; the one product of two
      float literals the script evaluates by itself, the width of the figure,
      is a binary64 [float], multiplied and rounded as Python does;
    - a 1-D numpy array is a list, a 2-D array a list of rows;
    - the libraries the script calls (numpy.random, scikit-learn, scipy.stats,
      matplotlib's colour table) are interfaces, given as type classes;
    - a run is a computation in a state, exception and trace monad: the state
      holds the objects the script mutates, the trace lists the calls it makes
      to the plotting surface, the console and the estimator. *)

From Stdlib Require Import String List ZArith QArith Qminmax Qround Bool Lia Arith.
From Stdlib Require Import Floats.
Import ListNotations.

Set Implicit Arguments.

(** ** Outcomes of a computation *)

Inductive exn : Set :=
| IndexError
| ValueError
| AttributeError.

Inductive outcome (A : Type) : Type :=
| Done (a : A)
| Raised (e : exn)
| OutOfFuel.

Arguments Done {A} a.
Arguments Raised {A} e.
Arguments OutOfFuel {A}.

Definition obind {A B : Type} (o : outcome A) (k : A -> outcome B) : outcome B :=
  match o with
  | Done a => k a
  | Raised e => Raised e
  | OutOfFuel => OutOfFuel
  end.

Fixpoint omap {A B : Type} (f : A -> outcome B) (l : list A) : outcome (list B) :=
  match l with
  | [] => Done []
  | x :: t => obind (f x) (fun b => obind (omap f t) (fun bs => Done (b :: bs)))
  end.

(** ** Python and numpy operations on lists *)

Module Py.

Section Lists.
Context {A : Type}.

(** [len(l)] as a Python integer. *)
Definition len (l : list A) : Z := Z.of_nat (length l).

(** [l[i]]: a negative index counts from the end, an index outside
    [-len, len) raises. *)
Definition getitem (l : list A) (i : Z) : outcome A :=
  let j := (if i <? 0 then i + len l else i)%Z in
  if (j <? 0)%Z then Raised IndexError
  else match nth_error l (Z.to_nat j) with
       | Some a => Done a
       | None => Raised IndexError
       end.

(** [l[idx]] for an integer array [idx] (numpy fancy indexing). *)
Definition take (l : list A) (idx : list Z) : outcome (list A) :=
  omap (getitem l) idx.

(** A slice bound clipped the way Python clips it (positive step). *)
Definition clip (n i : Z) : Z :=
  (if i <? 0 then Z.max 0 (i + n) else Z.min i n)%Z.

(** Every [step]-th element, the first one after [k] skipped elements. *)
Fixpoint stride (k step : nat) (l : list A) : list A :=
  match l with
  | [] => []
  | x :: t =>
      match k with
      | O => x :: stride (step - 1) step t
      | S k' => stride k' step t
      end
  end.

(** [l[start:stop:step]] for a positive [step]. *)
Definition slice (l : list A) (start stop step : Z) : list A :=
  let a := clip (len l) start in
  let b := clip (len l) stop in
  stride 0 (Z.to_nat step) (firstn (Z.to_nat (b - a)) (skipn (Z.to_nat a) l)).

(** [np.append(a, b)] on 1-D arrays: a new array, [a] is left as it is. *)
Definition append (a b : list A) : list A := a ++ b.

(** [enumerate(l)]. *)
Definition enumerate (l : list A) : list (Z * A) :=
  combine (map Z.of_nat (seq 0 (length l))) l.

(** [a.ravel()] of a 2-D array: its rows one after the other. *)
Definition ravel (a : list (list A)) : list A := concat a.

(** [a.shape] of a 2-D array. *)
Definition shape (a : list (list A)) : nat * nat :=
  (length a, length (hd [] a)).

Fixpoint chunk (r c : nat) (l : list A) : list (list A) :=
  match r with
  | O => []
  | S r' => firstn c l :: chunk r' c (skipn c l)
  end.

(** [a.reshape((r, c))] of a 1-D array: raises unless the sizes agree. *)
Definition reshape (l : list A) (s : nat * nat) : outcome (list (list A)) :=
  let (r, c) := s in
  if Nat.eqb (length l) (r * c) then Done (chunk r c l) else Raised ValueError.
End Lists.

(** [range(n)]. *)
Definition range (n : Z) : list Z := map Z.of_nat (seq 0 (Z.to_nat n)).

(** [np.c_[a, b]] of two 1-D arrays: the rows [(a[i], b[i])]; raises when
    the lengths differ. *)
Definition c_ {A B : Type} (a : list A) (b : list B) : outcome (list (A * B)) :=
  if Nat.eqb (length a) (length b) then Done (combine a b) else Raised ValueError.

(** [j * np.ones(n, dtype=int)]. *)
Definition times_ones (j n : Z) : list Z := repeat j (Z.to_nat n).

(** [np.concatenate] and [np.vstack] of a list of arrays. *)
Definition concatenate {A : Type} (ls : list (list A)) : list A := concat ls.
Definition vstack {A : Type} (ls : list (list A)) : list A := concat ls.

(** [np.arange(start, stop, step)]: [ceil((stop - start) / step)] values
    [start + i * step]. *)
Definition arange (start stop step : Q) : list Q :=
  map (fun i => start + inject_Z (Z.of_nat i) * step)
      (seq 0 (Z.to_nat (Qceiling ((stop - start) / step)))).

(** [np.meshgrid(xs, ys)]: two arrays of shape [(len ys, len xs)]. *)
Definition meshgrid (xs ys : list Q) : list (list Q) * list (list Q) :=
  (map (fun _ => xs) ys, map (fun y => map (fun _ => y) xs) ys).

(** [a > b] on floats. *)
Definition gt (a b : Q) : bool := negb (Qle_bool a b).

End Py.

(** ** Values of the script *)

(** A 2-D point (or mean) and a 2x2 covariance matrix, by rows. *)
Abbreviation vec2 := (Q * Q)%type.
Abbreviation mat2 := ((Q * Q) * (Q * Q))%type.
Abbreviation array2 := (list (list Q)).

(** ** The libraries the script calls *)

(** [numpy.random.RandomState]: a generator is a value; a draw returns the
    sample and the generator after the draw. *)
Class NumpyRandom : Type := {
  RandomState : Type;
  RandomState_seed : Z -> RandomState;
  multivariate_normal : RandomState -> vec2 -> mat2 -> Z -> list vec2 * RandomState
}.

(** The constructor arguments and the attributes the script assigns on a
    [sklearn.mixture.BayesianGaussianMixture]. *)
Module BayesianGaussianMixture.
Record t : Type := make {
  weight_concentration_prior_type : string;
  n_components : Z;
  reg_covar : Q;
  init_params : string;
  max_iter : Z;
  mean_precision_prior : Q;
  random_state : Z;
  tol : Q;
  weight_concentration_prior : option Q;
  warm_start : bool
}.

Definition set_weight_concentration_prior (e : t) (c : Q) : t :=
  make (weight_concentration_prior_type e) (n_components e) (reg_covar e)
       (init_params e) (max_iter e) (mean_precision_prior e)
       (random_state e) (tol e) (Some c) (warm_start e).

Definition set_warm_start (e : t) (b : bool) : t :=
  make (weight_concentration_prior_type e) (n_components e) (reg_covar e)
       (init_params e) (max_iter e) (mean_precision_prior e)
       (random_state e) (tol e) (weight_concentration_prior e) b.
End BayesianGaussianMixture.

(** What a fit leaves on the estimator (the MixtureState and whatever else
    the library keeps to resume from), and the calls the script makes on it.
    [fit p prev X] is one [estimator.fit(X)] on an estimator with settings
    [p], never fitted ([None]) or left in state [prev] by the previous call. *)
Class SklearnMixture : Type := {
  Fitted : Type;
  weights_ : Fitted -> list Q;
  means_ : Fitted -> list vec2;
  covariances_ : Fitted -> list mat2;
  converged_ : Fitted -> bool;
  fit : BayesianGaussianMixture.t -> option Fitted -> list vec2 -> Fitted;
  score_samples : Fitted -> vec2 -> Q
}.

(** [scipy.stats.multivariate_normal.pdf]. *)
Class ScipyStats : Type := {
  pdf : vec2 -> vec2 -> mat2 -> Q
}.

(** [list(matplotlib._color_data.CSS4_COLORS.values())]. *)
Class MatplotlibColors : Type := {
  CSS4_COLORS : list string
}.

(** ** Parameters of the dataset and of the estimator *)

Local Open Scope Q_scope.

Definition random_state : Z := 2.
Definition n_components : Z := 6.
Definition n_features : Z := 2.

Definition colors : list string :=
  ["#0072B2"; "#F0E442"; "#D55E00"; "#EE82EE"; "#A0522D"; "#2E8B57"]%string.

Definition covars : list mat2 :=
  [ ((0.1, 0.02), (0.02, 0.15));
    ((0.3, -0.01), (-0.01, 0.3));
    ((0.7, 0.4), (0.3, 0.6));
    ((0.3, 0.03), (0.09, 0.3));
    ((0.6, -0.07), (-0.05, 0.6));
    ((0.6, 0.13), (0.12, 0.86)) ].

Definition samples : list Z := [300; 500; 400; 400; 400; 300]%Z.

Definition means : list vec2 :=
  [ (0.8, -2.0);
    (-2.5, -0.05);
    (-2, 2.0);
    (1.2, 2.5);
    (2, 0.7);
    (-1, -2.0) ].

(** The one entry of [estimators]: title, estimator, concentration priors. *)
Definition the_title : string :=
  "Variational Inference in Finite mixture with Dirichlet Prior "%string.

Definition the_estimator : BayesianGaussianMixture.t :=
  BayesianGaussianMixture.make
    "dirichlet_distribution"%string
    (3 * n_components)%Z
    0
    "random"%string
    5%Z
    0.8
    random_state
    1e-5
    None
    false.

Definition estimators : list (string * BayesianGaussianMixture.t * list Q) :=
  [ (the_title, the_estimator, [1]) ].

Definition SMALL_PROBS : Q := 0.

(** A decimal literal of type [float] stands for the nearest binary64
    float, as it does in Python. *)
Set Warnings "-inexact-float".

(** [plt.figure(figsize=(4.7 * 3, 8))]: the width is a product of binary64
    floats, [4.7] being the float nearest to 47/10 and the product rounded
    to the nearest float; the height is the integer 8, which the figure
    holds as a float. *)
Definition figsize : float * float := (4.7 * 3, 8)%float.

(** The number a finite binary64 float stands for. *)
Definition float_value (x : float) : Q :=
  match Prim2SF x with
  | S754_finite s m e =>
      inject_Z (if s then Z.neg m else Z.pos m) * inject_Z 2 ^ e
  | _ => 0
  end.

(** [gridspec.GridSpec(3, len(concentrations_prior))]. *)
Definition gridspec_shape (concentrations_prior : list Q) : Z * Z :=
  (3%Z, Py.len concentrations_prior).

(** ** The state of a run and the calls it makes *)

Inductive axis : Set := Ax1 | Ax2.

(** The text of a bar label: ["%.1f%%" % v]. *)
Inductive label : Set := Percent1 (v : Q).

(** The calls of the script to the plotting surface, the console, numpy's
    grid builder and the estimator, in the order it makes them. [Decor] is a
    call that only changes titles, ticks or grid lines. *)
Inductive event : Type :=
| Figure (size : float * float)
| GridSpec (shape : Z * Z)
| Subplot (ax : axis)
| Decor (ax : axis) (what : string)
| Clear (ax : axis)
| Scatter (ax : axis) (xs ys : list Q) (cs : list string)
| SetXlim (ax : axis) (lo hi : Q)
| SetYlim (ax : axis) (lo hi : Q)
| Meshgrid (xx yy : array2)
| Contourf (ax : axis) (xx yy zz : array2)
| Contour (ax : axis) (xx yy zz : array2) (color : string)
| Bar (ax : axis) (k : Z) (w : Q)
| Text (ax : axis) (k : Z) (y : Q) (s : label)
| Pause (t : Q)
| RawInput (prompt : string)
| Fit
| Print (b : bool).

(** The view limits of an axes object; [clear()] puts them back to (0, 1). *)
Record Axes : Type := { xlim : Q * Q; ylim : Q * Q }.

Definition fresh_axes : Axes := {| xlim := (0, 1); ylim := (0, 1) |}.

Section Script.
Context {NR : NumpyRandom} {SM : SklearnMixture} {SS : ScipyStats}
        {MC : MatplotlibColors}.

(** An estimator object: its settings and, once fitted, what the fit left. *)
Record Estimator : Type := {
  settings : BayesianGaussianMixture.t;
  fitted : option Fitted
}.

(** The objects a run mutates: numpy's global generator (seeded on
    import), the estimator of the current entry, the two axes. *)
Record World : Type := {
  np_random : RandomState;
  estimator : Estimator;
  ax1 : Axes;
  ax2 : Axes
}.

(** *** The monad: state, exceptions, trace *)

Definition M (A : Type) : Type := World -> outcome (A * World * list event).

Definition ret {A : Type} (a : A) : M A := fun w => Done (a, w, []).

Definition bind {A B : Type} (m : M A) (k : A -> M B) : M B := fun w =>
  match m w with
  | Done (a, w1, t1) =>
      match k a w1 with
      | Done (b, w2, t2) => Done (b, w2, t1 ++ t2)
      | Raised e => Raised e
      | OutOfFuel => OutOfFuel
      end
  | Raised e => Raised e
  | OutOfFuel => OutOfFuel
  end.

Definition emit (e : event) : M unit := fun w => Done (tt, w, [e]).
Definition get : M World := fun w => Done (w, w, []).
Definition put (w : World) : M unit := fun _ => Done (tt, w, []).
Definition lift {A : Type} (o : outcome A) : M A := fun w =>
  match o with
  | Done a => Done (a, w, [])
  | Raised e => Raised e
  | OutOfFuel => OutOfFuel
  end.
Definition out_of_fuel {A : Type} : M A := fun _ => OutOfFuel.

Fixpoint for_each {A : Type} (l : list A) (body : A -> M unit) : M unit :=
  match l with
  | [] => ret tt
  | x :: t => bind (body x) (fun _ => for_each t body)
  end.
End Script.

Declare Scope script_scope.
Delimit Scope script_scope with script.
Notation "x <- m ;; k" := (bind m (fun x => k))
  (at level 61, m at next level, right associativity) : script_scope.
Notation "' p <- m ;; k" := (bind m (fun x => match x with p => k end))
  (at level 61, p pattern, m at next level, right associativity) : script_scope.
Notation "m ;; k" := (bind m (fun _ => k))
  (at level 61, right associativity) : script_scope.

(** ** The script *)

Section Program.
Context {NR : NumpyRandom} {SM : SklearnMixture} {SS : ScipyStats}
        {MC : MatplotlibColors}.
Local Open Scope script_scope.

(** *** Object operations *)

Definition axes_of (ax : axis) (w : World) : Axes :=
  match ax with Ax1 => ax1 w | Ax2 => ax2 w end.

Definition set_axes (ax : axis) (a : Axes) (w : World) : World :=
  match ax with
  | Ax1 => {| np_random := np_random w; estimator := estimator w;
              ax1 := a; ax2 := ax2 w |}
  | Ax2 => {| np_random := np_random w; estimator := estimator w;
              ax1 := ax1 w; ax2 := a |}
  end.

Definition set_estimator (e : Estimator) (w : World) : World :=
  {| np_random := np_random w; estimator := e; ax1 := ax1 w; ax2 := ax2 w |}.

Definition set_np_random (g : RandomState) (w : World) : World :=
  {| np_random := g; estimator := estimator w; ax1 := ax1 w; ax2 := ax2 w |}.

(** [np.random.seed(s)]: reseeds numpy's global generator. *)
Definition np_random_seed (s : Z) : M unit :=
  w <- get ;; put (set_np_random (RandomState_seed s) w).

(** [plt.subplot(...)]: a new axes object. *)
Definition subplot (ax : axis) : M axis :=
  w <- get ;; put (set_axes ax fresh_axes w) ;; emit (Subplot ax) ;; ret ax.

Definition clear (ax : axis) : M unit :=
  w <- get ;; put (set_axes ax fresh_axes w) ;; emit (Clear ax).

Definition set_xlim (ax : axis) (lo hi : Q) : M unit :=
  w <- get ;;
  put (set_axes ax {| xlim := (lo, hi); ylim := ylim (axes_of ax w) |} w) ;;
  emit (SetXlim ax lo hi).

Definition set_ylim (ax : axis) (lo hi : Q) : M unit :=
  w <- get ;;
  put (set_axes ax {| xlim := xlim (axes_of ax w); ylim := (lo, hi) |} w) ;;
  emit (SetYlim ax lo hi).

Definition get_xlim (ax : axis) : M (Q * Q) :=
  w <- get ;; ret (xlim (axes_of ax w)).

Definition get_ylim (ax : axis) : M (Q * Q) :=
  w <- get ;; ret (ylim (axes_of ax w)).

Definition raw_input (prompt : string) : M unit := emit (RawInput prompt).

(** An attribute that exists only on a fitted estimator. *)
Definition attr {A : Type} (f : Fitted -> A) (e : Estimator) : outcome A :=
  match fitted e with
  | Some s => Done (f s)
  | None => Raised AttributeError
  end.

(** [estimator.fit(X)]: the estimator object is updated in place. *)
Definition estimator_fit (X : list vec2) : M unit :=
  w <- get ;;
  let e := estimator w in
  put (set_estimator
         {| settings := settings e;
            fitted := Some (fit (settings e) (fitted e) X) |} w) ;;
  emit Fit.

(** *** Lines 19-24: the two scores *)

(** [estimator.score_samples(x.reshape(1,-1))]: the log-density of the
    mixture at [x]. *)
Definition score_fn_dpgmm (x : vec2) (estimator : Estimator) : outcome Q :=
  attr (fun s => score_samples s x) estimator.

Definition score_fn_mvn (x mean : vec2) (covar : mat2) : Q :=
  pdf x mean covar.

(** *** Lines 27-38: plot_contours *)

(** Lines 28-31, for [means.shape[0] = m]. *)
Definition new_colors (m : Z) : list string :=
  let new_colors := colors in
  if (Py.len new_colors <? m)%Z then
    let new_clusters := (m - Py.len new_colors)%Z in
    Py.append new_colors
              (Py.slice CSS4_COLORS 0 (4 * (new_clusters - 1)) 4)
  else new_colors.

Definition plot_contours (ax : axis) (estimator : Estimator)
    (weights : list Q) (means : list vec2) (covars : list mat2)
    (xx yy : array2) : M unit :=
  let new_colors := new_colors (Py.len means) in
  pts <- lift (Py.c_ (Py.ravel xx) (Py.ravel yy)) ;;
  zs <- lift (omap (fun x => score_fn_dpgmm x estimator) pts) ;;
  zz <- lift (Py.reshape zs (Py.shape xx)) ;;
  emit (Contourf ax xx yy zz) ;;
  for_each (Py.range (Py.len means)) (fun n =>
    pts <- lift (Py.c_ (Py.ravel xx) (Py.ravel yy)) ;;
    zs <- lift (omap (fun x =>
                  obind (Py.getitem means n) (fun mean_n =>
                  obind (Py.getitem covars n) (fun covar_n =>
                  Done (score_fn_mvn x mean_n covar_n)))) pts) ;;
    zz <- lift (Py.reshape zs (Py.shape xx)) ;;
    color <- lift (Py.getitem new_colors (n - 1)) ;;
    emit (Contour ax xx yy zz color)).

(** *** Lines 42-58: plot_results *)

Definition plot_results (ax1 ax2 : axis) (estimator : Estimator)
    (xx yy : array2) : M unit :=
  weights_0 <- lift (attr weights_ estimator) ;;
  means_0 <- lift (attr means_ estimator) ;;
  covariances_0 <- lift (attr covariances_ estimator) ;;
  plot_contours ax1 estimator weights_0 means_0 covariances_0 xx yy ;;
  emit (Decor ax2 "set_tick_params") ;;
  emit (Decor ax2 "yaxis.grid") ;;
  all_weights <- lift (attr weights_ estimator) ;;
  let weights := filter (fun w => Py.gt w SMALL_PROBS) all_weights in
  for_each (Py.enumerate weights) (fun kw =>
    let (k, w) := kw in
    emit (Bar ax2 k w) ;;
    emit (Text ax2 k (w + 0.007)%Q (Percent1 (w * 100)%Q))) ;;
  set_xlim ax2 (- 0.6)%Q (3 * inject_Z n_components - 0.4)%Q ;;
  set_ylim ax2 0%Q 1.1%Q ;;
  emit (Decor ax2 "tick_params y") ;;
  emit (Decor ax2 "tick_params x").

(** *** Lines 62-83: init_plots *)

Definition init_plots (ax1 ax2 : axis) (X : list vec2) (y : list Z)
    (title : string) (plot_title generate_mesh : bool)
    : M (axis * axis * array2 * array2) :=
  emit (Decor ax1 "set_title") ;;
  cs <- lift (Py.take colors y) ;;
  emit (Scatter ax1 (map fst X) (map snd X) cs) ;;
  set_xlim ax1 (- 4)%Q 4%Q ;;
  set_ylim ax1 (- 6)%Q 6%Q ;;
  emit (Decor ax1 "set_xticks") ;;
  emit (Decor ax1 "set_yticks") ;;
  (if plot_title
   then emit (Decor ax1 "set_ylabel") ;; emit (Decor ax2 "set_ylabel")
   else ret tt) ;;
  if generate_mesh then
    xl <- get_xlim ax1 ;;
    yl <- get_ylim ax1 ;;
    let (x_min, x_max) := xl in
    let (y_min, y_max) := yl in
    let h := Qmax ((x_max - x_min) / 50) ((y_max - y_min) / 50) in
    let (xx, yy) := Py.meshgrid (Py.arange x_min x_max h)
                                (Py.arange y_min y_max h) in
    emit (Meshgrid xx yy) ;;
    ret (ax1, ax2, xx, yy)
  else ret (ax1, ax2, [], []).

(** *** Lines 115-121: the data generator *)

(** The list comprehension of line 117: one draw per component, all from
    the same generator, in the order of [js]. *)
Fixpoint draw_components (rng : RandomState) (js : list Z)
    : outcome (list (list vec2) * RandomState) :=
  match js with
  | [] => Done ([], rng)
  | j :: t =>
      obind (Py.getitem means j) (fun mean_j =>
      obind (Py.getitem covars j) (fun covar_j =>
      obind (Py.getitem samples j) (fun samples_j =>
      let (block, rng') := multivariate_normal rng mean_j covar_j samples_j in
      obind (draw_components rng' t) (fun r =>
      Done (block :: fst r, snd r)))))
  end.

(** The list comprehension of line 120. *)
Definition label_blocks (js : list Z) : outcome (list (list Z)) :=
  omap (fun j => obind (Py.getitem samples j) (fun samples_j =>
                 Done (Py.times_ones j samples_j))) js.

Definition generate_data (seed : Z) : M (list vec2 * list Z) :=
  let rng := RandomState_seed seed in
  r <- lift (draw_components rng (Py.range n_components)) ;;
  let X := Py.vstack (fst r) in
  ls <- lift (label_blocks (Py.range n_components)) ;;
  let y := Py.concatenate ls in
  ret (X, y).

(** The Dataset: the i-th point with the i-th label. *)
Definition dataset (Xy : list vec2 * list Z) : list (vec2 * Z) :=
  combine (fst Xy) (snd Xy).

(** *** Lines 126-157: fit and draw until convergence *)

Definition prompt : string := "Press ENTER to continue."%string.

Definition get_estimator : M Estimator := w <- get ;; ret (estimator w).

(** Lines 149-155, the body of the loop. The axes it rebinds are the
    ones it was given; the mesh is the one of line 143. *)
Definition redraw (a1 a2 : axis) (X : list vec2) (y : list Z)
    (title : string) (k : Z) (xx yy : array2) : M unit :=
  estimator_fit X ;;
  clear a1 ;;
  clear a2 ;;
  r <- init_plots a1 a2 X y title (k =? 0)%Z false ;;
  let '(a1', a2', _, _) := r in
  e <- get_estimator ;;
  plot_results a1' a2' e xx yy ;;
  emit (Pause 0.001%Q).

(** Line 148: [while not estimator.converged_: body]. *)
Fixpoint while_not_converged (fuel : nat) (body : M unit) : M unit :=
  match fuel with
  | O => out_of_fuel
  | S fuel' =>
      e <- get_estimator ;;
      c <- lift (attr converged_ e) ;;
      if c then ret tt else body ;; while_not_converged fuel' body
  end.

(** Lines 132-157, for one concentration prior. *)
Definition run_prior (fuel : nat) (X : list vec2) (y : list Z)
    (title : string) (k : Z) (concentration : Q) : M unit :=
  w <- get ;;
  let e := estimator w in
  put (set_estimator
         {| settings :=
              BayesianGaussianMixture.set_warm_start
                (BayesianGaussianMixture.set_weight_concentration_prior
                   (settings e) concentration) true;
            fitted := fitted e |} w) ;;
  a1 <- subplot Ax1 ;;
  a2 <- subplot Ax2 ;;
  r <- init_plots a1 a2 X y title (k =? 0)%Z false ;;
  let '(a1, a2, _, _) := r in
  emit (Pause 0.1%Q) ;;
  raw_input prompt ;;
  estimator_fit X ;;
  clear a1 ;;
  clear a2 ;;
  r <- init_plots a1 a2 X y title (k =? 0)%Z true ;;
  let '(a1, a2, xx, yy) := r in
  e <- get_estimator ;;
  plot_results a1 a2 e xx yy ;;
  emit (Pause 0.001%Q) ;;
  raw_input prompt ;;
  while_not_converged fuel (redraw a1 a2 X y title k xx yy) ;;
  e <- get_estimator ;;
  c <- lift (attr converged_ e) ;;
  emit (Print c) ;;
  raw_input prompt.

(** Lines 126-131, for one entry of [estimators]. The margins set by
    [plt.subplots_adjust] are layout only and leave no call in the trace;
    the title string formatted from [title] and [concentration] is passed
    on as [title]. *)
Definition run_entry (fuel : nat) (X : list vec2) (y : list Z)
    (entry : string * BayesianGaussianMixture.t * list Q) : M unit :=
  let '(title, est, concentrations_prior) := entry in
  w <- get ;;
  put (set_estimator {| settings := est; fitted := None |} w) ;;
  emit (Figure figsize) ;;
  emit (GridSpec (gridspec_shape concentrations_prior)) ;;
  for_each (Py.enumerate concentrations_prior) (fun kc =>
    run_prior fuel X y title (fst kc) (snd kc)).

(** The whole script; [fuel] bounds the iterations of the loop. *)
Definition main (fuel : nat) : M unit :=
  np_random_seed 1 ;;
  Xy <- generate_data random_state ;;
  for_each estimators (run_entry fuel (fst Xy) (snd Xy)).

(** *** Reading a trace *)

Fixpoint pick {A B : Type} (f : A -> option B) (l : list A) : list B :=
  match l with
  | [] => []
  | x :: t => match f x with Some b => b :: pick f t | None => pick f t end
  end.

(** The phase an event belongs to: the scatter of the raw data is the
    Init drawing, the filled contour of the mixture the Fitted drawing,
    the prompt the Wait. *)
Inductive phase : Set := Init | Fitted_ | Wait.

Definition phase_of (e : event) : option phase :=
  match e with
  | Scatter _ _ _ _ => Some Init
  | Contourf _ _ _ _ => Some Fitted_
  | RawInput _ => Some Wait
  | _ => None
  end.

Definition phases (t : list event) : list phase := pick phase_of t.

(** Two Fitted drawings always have a Wait somewhere between them:
    [pending] says that a Fitted drawing was seen and no Wait since. *)
Fixpoint wait_between_fitted (pending : bool) (ps : list phase) : bool :=
  match ps with
  | [] => true
  | Fitted_ :: ps' => if pending then false else wait_between_fitted true ps'
  | Wait :: ps' => wait_between_fitted false ps'
  | Init :: ps' => wait_between_fitted pending ps'
  end.

(** The steps of a run. Every call that is not a drawing call is a step:
    a fit, a pause, a prompt, the print of the convergence flag; of the
    drawing calls the two that mark a rendering are steps, the scatter of
    the raw data and the filled contour of the mixture. *)
Inductive step : Set :=
| DrawInit
| DrawFitted
| Prompt
| CallFit
| Sleep (t : Q)
| PrintFlag (b : bool).

Definition step_of (e : event) : option step :=
  match e with
  | Scatter _ _ _ _ => Some DrawInit
  | Contourf _ _ _ _ => Some DrawFitted
  | RawInput _ => Some Prompt
  | Fit => Some CallFit
  | Pause t => Some (Sleep t)
  | Print b => Some (PrintFlag b)
  | Figure _ | GridSpec _ | Subplot _ | Decor _ _ | Clear _
  | SetXlim _ _ _ | SetYlim _ _ _ | Meshgrid _ _ | Contour _ _ _ _ _
  | Bar _ _ _ | Text _ _ _ _ => None
  end.

Definition steps (t : list event) : list step := pick step_of t.

(** The grids computed, the grids contours were evaluated on, the bars
    and the bar labels drawn. *)
Definition mesh_of (e : event) : option (array2 * array2) :=
  match e with Meshgrid xx yy => Some (xx, yy) | _ => None end.

Definition contour_grid_of (e : event) : option (array2 * array2) :=
  match e with
  | Contourf _ xx yy _ => Some (xx, yy)
  | Contour _ xx yy _ _ => Some (xx, yy)
  | _ => None
  end.

Definition bar_of (e : event) : option (Z * Q) :=
  match e with Bar _ k w => Some (k, w) | _ => None end.

Definition text_of (e : event) : option (Z * Q * label) :=
  match e with Text _ k y s => Some (k, y, s) | _ => None end.

(** [f] at every point of a grid given by its two coordinate arrays. *)
Definition grid_map {A : Type} (f : vec2 -> A) (xx yy : array2)
    : list (list A) :=
  map (fun rows => map f (combine (fst rows) (snd rows))) (combine xx yy).

(** A 2-D array with [r] rows of [c] entries. *)
Definition has_shape {A : Type} (a : list (list A)) (r c : nat) : Prop :=
  length a = r /\ Forall (fun row => length row = c) a.
End Program.

(** ** What the run leaves and draws, written out *)

(** The labels of line 120, written out. *)
Definition expected_labels : list Z :=
  repeat 0%Z 300 ++ repeat 1%Z 500 ++ repeat 2%Z 400
  ++ repeat 3%Z 400 ++ repeat 4%Z 400 ++ repeat 5%Z 300.

(** Blocks of points, each point tagged with the index of its block. *)
Definition tag_blocks {A : Type} (blocks : list (list A)) : list (A * Z) :=
  concat (map (fun jb => map (fun p => (p, fst jb)) (snd jb))
              (Py.enumerate blocks)).

Section Expected.
Context {NR : NumpyRandom} {SM : SklearnMixture} {SS : ScipyStats}
        {MC : MatplotlibColors}.

(** The settings of the estimator once lines 132-133 have run. *)
Definition run_settings (concentration : Q) : BayesianGaussianMixture.t :=
  BayesianGaussianMixture.set_warm_start
    (BayesianGaussianMixture.set_weight_concentration_prior
       the_estimator concentration) true.

(** What the estimator holds after [k] calls of [fit] on [X]. *)
Fixpoint fit_n (p : BayesianGaussianMixture.t) (X : list vec2) (k : nat)
    : option Fitted :=
  match k with
  | O => None
  | S k' => Some (fit p (fit_n p X k') X)
  end.

Definition fitted_estimator (p : BayesianGaussianMixture.t) (X : list vec2)
    (k : nat) : Estimator :=
  {| settings := p; fitted := fit_n p X k |}.

(** One slot per component in a fitted state. *)
Definition slots_ok (m : nat) (o : option Fitted) : bool :=
  match o with
  | Some s => Nat.eqb (length (means_ s)) m
              && Nat.eqb (length (covariances_ s)) m
  | None => false
  end.

Definition is_converged (o : option Fitted) : bool :=
  match o with
  | Some s => converged_ s
  | None => false
  end.

(** The estimator reports convergence at call [n + 1] of [fit] and not
    before, and every state it goes through has [m] slots. *)
Definition converges_after (m : nat) (p : BayesianGaussianMixture.t)
    (X : list vec2) (n : nat) : bool :=
  forallb (fun k => slots_ok m (fit_n p X k)
                    && negb (is_converged (fit_n p X k))) (seq 1 n)
  && slots_ok m (fit_n p X (S n))
  && is_converged (fit_n p X (S n)).

(** The grid of line 80-82 for the view of lines 65-66. *)
Definition mesh_step : Q := Qmax ((4 - - 4) / 50) ((6 - - 6) / 50).
Definition mesh_xs : list Q := Py.arange (- 4) 4 mesh_step.
Definition mesh_ys : list Q := Py.arange (- 6) 6 mesh_step.
Definition view_mesh : array2 * array2 := Py.meshgrid mesh_xs mesh_ys.

(** The limits [init_plots] leaves on the first axes and [plot_results]
    on the second. *)
Definition view_axes : Axes := {| xlim := (- 4, 4); ylim := (- 6, 6) |}.
Definition bar_axes : Axes :=
  {| xlim := (- 0.6, 3 * inject_Z n_components - 0.4); ylim := (0, 1.1) |}.

(** The calls of [init_plots]. *)
Definition init_trace (ax1 ax2 : axis) (X : list vec2) (cs : list string)
    (plot_title generate_mesh : bool) : list event :=
  [Decor ax1 "set_title"; Scatter ax1 (map fst X) (map snd X) cs;
   SetXlim ax1 (- 4) 4; SetYlim ax1 (- 6) 6;
   Decor ax1 "set_xticks"; Decor ax1 "set_yticks"]
  ++ (if plot_title
      then [Decor ax1 "set_ylabel"; Decor ax2 "set_ylabel"] else [])
  ++ (if generate_mesh
      then [Meshgrid (fst view_mesh) (snd view_mesh)] else []).

(** The colour [cs[n - 1]] of component [n]: the last one for [n = 0]. *)
Definition contour_color (cs : list string) (n : nat) : string :=
  nth (if Nat.eqb n 0 then length cs - 1 else n - 1) cs EmptyString.

Definition component_contour (ax : axis) (s : Fitted) (xx yy : array2)
    (n : nat) : event :=
  Contour ax xx yy
    (grid_map (fun x => score_fn_mvn x (nth n (means_ s) (0, 0))
                          (nth n (covariances_ s) ((0, 0), (0, 0)))) xx yy)
    (contour_color (new_colors (Py.len (means_ s))) n).

(** The calls of [plot_contours] on a fitted estimator. *)
Definition contours_trace (ax : axis) (s : Fitted) (xx yy : array2)
    : list event :=
  Contourf ax xx yy (grid_map (score_samples s) xx yy)
  :: map (component_contour ax s xx yy) (seq 0 (length (means_ s))).

(** The weights the bar chart shows, and its calls. *)
Definition shown_weights (s : Fitted) : list Q :=
  filter (fun w => Py.gt w SMALL_PROBS) (weights_ s).

Definition bar_events (ax : axis) (kw : Z * Q) : list event :=
  [Bar ax (fst kw) (snd kw);
   Text ax (fst kw) (snd kw + 0.007) (Percent1 (snd kw * 100))].

Definition bars_trace (ax : axis) (ws : list Q) : list event :=
  flat_map (bar_events ax) (Py.enumerate ws).

(** The calls of [plot_results] on a fitted estimator. *)
Definition results_trace (ax1 ax2 : axis) (s : Fitted) (xx yy : array2)
    : list event :=
  contours_trace ax1 s xx yy
  ++ [Decor ax2 "set_tick_params"; Decor ax2 "yaxis.grid"]
  ++ bars_trace ax2 (shown_weights s)
  ++ [SetXlim ax2 (- 0.6) (3 * inject_Z n_components - 0.4);
      SetYlim ax2 0 1.1;
      Decor ax2 "tick_params y"; Decor ax2 "tick_params x"].

(** The state the estimator is left in by call [k + 1] of [fit]. *)
Definition nth_fit (p : BayesianGaussianMixture.t) (X : list vec2) (k : nat)
    : Fitted :=
  fit p (fit_n p X k) X.

(** The calls of one turn of the loop, the fit of which leaves [s]. *)
Definition redraw_trace (X : list vec2) (cs : list string) (s : Fitted)
    : list event :=
  [Fit; Clear Ax1; Clear Ax2]
  ++ init_trace Ax1 Ax2 X cs true false
  ++ results_trace Ax1 Ax2 s (fst view_mesh) (snd view_mesh)
  ++ [Pause 0.001].

(** The calls of a whole run in which the loop makes [n] turns. *)
Definition run_trace (p : BayesianGaussianMixture.t) (X : list vec2)
    (cs : list string) (n : nat) : list event :=
  [Figure figsize; GridSpec (3, 1)%Z; Subplot Ax1; Subplot Ax2]
  ++ init_trace Ax1 Ax2 X cs true false
  ++ [Pause 0.1; RawInput prompt; Fit; Clear Ax1; Clear Ax2]
  ++ init_trace Ax1 Ax2 X cs true true
  ++ results_trace Ax1 Ax2 (nth_fit p X 0) (fst view_mesh) (snd view_mesh)
  ++ [Pause 0.001; RawInput prompt]
  ++ flat_map (fun k => redraw_trace X cs (nth_fit p X k)) (seq 1 n)
  ++ [Print true; RawInput prompt].

(** The points the generator returns for the seed of the script, and the
    colour of every label. *)
Definition generated_points : list vec2 :=
  match draw_components (RandomState_seed random_state)
                        (Py.range n_components) with
  | Done r => Py.vstack (fst r)
  | _ => []
  end.

Definition label_colors : list string :=
  map (fun j => nth (Z.to_nat j) colors EmptyString) expected_labels.

(** The draws of line 117 written out: one block per component, in the
    order of the components, each drawn from the generator that the draw
    before it left. *)
Fixpoint drawn_blocks (rng : RandomState) (cs : list (vec2 * mat2 * Z))
    : list (list vec2) :=
  match cs with
  | [] => []
  | c :: t =>
      fst (multivariate_normal rng (fst (fst c)) (snd (fst c)) (snd c))
      :: drawn_blocks
           (snd (multivariate_normal rng (fst (fst c)) (snd (fst c)) (snd c))) t
  end.

(** The state a run ends in. *)
Definition final_world (p : BayesianGaussianMixture.t) (X : list vec2)
    (n : nat) : World :=
  {| np_random := RandomState_seed 1;
     estimator := fitted_estimator p X (S n);
     ax1 := view_axes;
     ax2 := bar_axes |}.

(** The contract of [multivariate_normal]: a draw of size [n] has [n]
    rows. *)
Definition draws_have_size : Prop :=
  forall (g : RandomState) (mean : vec2) (covar : mat2) (n : Z),
    (0 <= n)%Z ->
    length (fst (multivariate_normal g mean covar n)) = Z.to_nat n.

(** The world between two drawings: the estimator after [k] fits. *)
Definition drawn_world (p : BayesianGaussianMixture.t) (X : list vec2)
    (g : RandomState) (k : nat) : World :=
  {| np_random := g; estimator := fitted_estimator p X k;
     ax1 := view_axes; ax2 := bar_axes |}.

(** The calls of a run before and after the one call of [np.meshgrid]. *)
Definition before_mesh (X : list vec2) (cs : list string) : list event :=
  [Figure figsize; GridSpec (3, 1)%Z; Subplot Ax1; Subplot Ax2]
  ++ init_trace Ax1 Ax2 X cs true false
  ++ [Pause 0.1; RawInput prompt; Fit; Clear Ax1; Clear Ax2]
  ++ init_trace Ax1 Ax2 X cs true false.

Definition after_mesh (p : BayesianGaussianMixture.t) (X : list vec2)
    (cs : list string) (n : nat) : list event :=
  results_trace Ax1 Ax2 (nth_fit p X 0) (fst view_mesh) (snd view_mesh)
  ++ [Pause 0.001; RawInput prompt]
  ++ flat_map (fun k => redraw_trace X cs (nth_fit p X k)) (seq 1 n)
  ++ [Print true; RawInput prompt].

(** Every state the estimator goes through has [m] slots and none reports
    convergence. *)
Definition never_converges (m : nat) (p : BayesianGaussianMixture.t)
    (X : list vec2) : Prop :=
  forall k : nat,
    slots_ok m (fit_n p X (S k)) = true
    /\ is_converged (fit_n p X (S k)) = false.

(** The number of names the slice of line 31 can take from the table: one
    in four. *)
Definition named_quota : nat := ((length CSS4_COLORS + 3) / 4)%nat.

(** The colour of a component contour, the x-range set, the data of a
    scatter. *)
Definition component_of (e : event) : option string :=
  match e with Contour _ _ _ _ c => Some c | _ => None end.

Definition xlim_of (e : event) : option (axis * Q * Q) :=
  match e with SetXlim ax lo hi => Some (ax, lo, hi) | _ => None end.

Definition scatter_of (e : event)
    : option (list Q * list Q * list string) :=
  match e with Scatter _ xs ys cs => Some (xs, ys, cs) | _ => None end.

(** What happens to the first axes: they are new or cleared, the data are
    scattered on them, the mixture contour is filled on them. *)
Inductive mark : Set := Wiped | Scattered | Filled.

Definition mark_of (e : event) : option mark :=
  match e with
  | Subplot Ax1 => Some Wiped
  | Clear Ax1 => Some Wiped
  | Scatter Ax1 _ _ _ => Some Scattered
  | Contourf Ax1 _ _ _ => Some Filled
  | _ => None
  end.

(** Between two wipes the data are scattered at most once and the contour
    filled at most once; [scattered] and [filled] say what the axes hold. *)
Fixpoint drawn_once_per_wipe (scattered filled : bool) (ms : list mark)
    : bool :=
  match ms with
  | [] => true
  | Wiped :: r => drawn_once_per_wipe false false r
  | Scattered :: r => negb scattered && drawn_once_per_wipe true filled r
  | Filled :: r => negb filled && drawn_once_per_wipe scattered true r
  end.

Definition run_marks (n : nat) : list mark :=
  [Wiped; Scattered; Wiped; Scattered; Filled]
  ++ flat_map (fun _ => [Wiped; Scattered; Filled]) (seq 1 n).

Definition fit_of (e : event) : option unit :=
  match e with Fit => Some tt | _ => None end.

(** The phases of a run in which the loop makes [n] turns. *)
Definition run_phases (n : nat) : list phase :=
  [Init; Wait; Init; Fitted_; Wait]
  ++ flat_map (fun _ => [Init; Fitted_]) (seq 1 n)
  ++ [Wait].

(** The steps of a run in which the loop makes [n] turns: the raw data,
    a pause of 0.1 s and the first prompt; the first fit, its drawing, a
    pause of 1 ms and the second prompt; [n] turns of fit, drawing and
    pause of 1 ms; the print of the flag and the last prompt. *)
Definition run_steps (n : nat) : list step :=
  [DrawInit; Sleep 0.1; Prompt;
   CallFit; DrawInit; DrawFitted; Sleep 0.001; Prompt]
  ++ flat_map (fun _ => [CallFit; DrawInit; DrawFitted; Sleep 0.001])
              (seq 1 n)
  ++ [PrintFlag true; Prompt].

Definition trace_of {A : Type} (o : outcome (A * World * list event))
    : list event :=
  match o with
  | Done r => snd r
  | _ => []
  end.

(** The reading of the Wait claim: in every run that ends, a Wait lies
    between any two Fitted drawings. *)
Definition wait_between_any_two_fitted (fuel : nat) (w : World) : Prop :=
  forall (w' : World) (t : list event),
    main fuel w = Done (tt, w', t) ->
    wait_between_fitted false (phases t) = true.
End Expected.

(** ** Small instances of the libraries, to run the script on *)

Module Toy.
Local Open Scope Q_scope.

(** A generator that counts its draws and returns the mean each time. *)
Definition numpy_random : NumpyRandom :=
  {| RandomState := Z;
     RandomState_seed := fun s => s;
     multivariate_normal := fun g mean _ n =>
       (repeat mean (Z.to_nat n), (g + 1)%Z) |}.

(** An estimator with 18 slots, four of them with weight, that counts
    its fits and reports convergence from call [stop] on. *)
Definition mixture (stop : nat) : SklearnMixture :=
  {| Fitted := nat;
     weights_ := fun _ => [0.5; 0; 0.3; 0.2] ++ repeat 0 14;
     means_ := fun _ => repeat (0, 0) 18;
     covariances_ := fun _ => repeat ((1, 0), (0, 1)) 18;
     converged_ := fun k => Nat.leb stop k;
     fit := fun _ prev _ => match prev with None => 1%nat | Some k => S k end;
     score_samples := fun k x => fst x + snd x;
     |}.

Definition scipy_stats : ScipyStats :=
  {| pdf := fun x mean _ => fst x - fst mean |}.

(** 148 colour names, as many as the CSS4 table has: c00a, c00b, ... *)
Definition colour_name (i : nat) : string :=
  String.append "c"%string
    (String (Ascii.ascii_of_nat (48 + i / 4 / 10))
       (String (Ascii.ascii_of_nat (48 + (i / 4) mod 10))
          (String (Ascii.ascii_of_nat (97 + i mod 4)) EmptyString))).

Definition css4 : MatplotlibColors :=
  {| CSS4_COLORS := map colour_name (seq 0 148) |}.

Definition world : @World numpy_random (mixture 3) :=
  @Build_World numpy_random (mixture 3) 0%Z
    (@Build_Estimator (mixture 3) the_estimator None)
    fresh_axes fresh_axes.

(** A fitted estimator of the small instance and the 2 x 2 grid
    [np.meshgrid([0, 1], [2, 3])]. *)
Definition estimator1 : @Estimator (mixture 3) :=
  @Build_Estimator (mixture 3) the_estimator (Some 1%nat).

Definition xx : array2 := [[0; 1]; [0; 1]].
Definition yy : array2 := [[2; 2]; [3; 3]].

(** An estimator with 18 slots that never reports convergence, and one
    with 45 slots. *)
Definition restless : SklearnMixture :=
  {| Fitted := nat;
     weights_ := fun _ => repeat (1 # 18) 18;
     means_ := fun _ => repeat (0, 0) 18;
     covariances_ := fun _ => repeat ((1, 0), (0, 1)) 18;
     converged_ := fun _ => false;
     fit := fun _ prev _ => match prev with None => 1%nat | Some k => S k end;
     score_samples := fun k x => fst x + snd x;
     |}.

Definition crowded : SklearnMixture :=
  {| Fitted := nat;
     weights_ := fun _ => repeat (1 # 45) 45;
     means_ := fun _ => repeat (0, 0) 45;
     covariances_ := fun _ => repeat ((1, 0), (0, 1)) 45;
     converged_ := fun _ => true;
     fit := fun _ prev _ => match prev with None => 1%nat | Some k => S k end;
     score_samples := fun k x => fst x + snd x;
     |}.

Definition estimator45 : @Estimator crowded :=
  @Build_Estimator crowded the_estimator (Some 1%nat).

Definition world_of (SM : SklearnMixture) : @World numpy_random SM :=
  @Build_World numpy_random SM 0%Z
    (@Build_Estimator SM the_estimator None) fresh_axes fresh_axes.
End Toy.

(** * Properties *)

Local Close Scope Q_scope.

(** ** Facts about the list operations *)

Section ListFacts.
Context {A B : Type}.

Lemma pick_app (f : A -> option B) (l1 l2 : list A) :
  pick f (l1 ++ l2) = pick f l1 ++ pick f l2.
Proof.
  induction l1 as [|x l1 IH]; simpl; [reflexivity|].
  destruct (f x); simpl; now rewrite IH.
Qed.

Lemma pick_none (f : A -> option B) (l : list A) :
  (forall x, In x l -> f x = None) -> pick f l = [].
Proof.
  induction l as [|x l IH]; simpl; intros H; [reflexivity|].
  rewrite (H x (or_introl eq_refl)). apply IH. intros y Hy. apply H. now right.
Qed.

Lemma pick_map_some (f : A -> option B) (g : A -> B) (l : list A) :
  (forall x, In x l -> f x = Some (g x)) -> pick f l = map g l.
Proof.
  induction l as [|x l IH]; simpl; intros H; [reflexivity|].
  rewrite (H x (or_introl eq_refl)). f_equal. apply IH.
  intros y Hy. apply H. now right.
Qed.

Lemma omap_done (f : A -> outcome B) (g : A -> B) (l : list A) :
  (forall x, In x l -> f x = Done (g x)) -> omap f l = Done (map g l).
Proof.
  induction l as [|x l IH]; simpl; intros H; [reflexivity|].
  rewrite (H x (or_introl eq_refl)). simpl.
  rewrite IH; [reflexivity|]. intros y Hy. apply H. now right.
Qed.

Lemma stride_length (l : list A) : forall k s : nat,
  k <= s -> length (Py.stride k (S s) l) = (length l + s - k) / S s.
Proof.
  induction l as [|x l IH]; intros k s Hk; cbn [Py.stride length].
  - symmetry. apply Nat.div_small. lia.
  - destruct k as [|k']; cbn [length].
    + replace (S s - 1) with s by lia. rewrite IH by lia.
      replace (length l + s - s) with (length l) by lia.
      replace (S (length l) + s - 0) with (length l + 1 * S s) by lia.
      rewrite Nat.div_add; lia.
    + rewrite IH by lia. reflexivity.
Qed.

Lemma getitem_nonneg (l : list A) (i : Z) :
  (0 <= i < Py.len l)%Z ->
  exists a, Py.getitem l i = Done a /\ nth_error l (Z.to_nat i) = Some a.
Proof.
  unfold Py.getitem, Py.len. intros Hi.
  destruct (Z.ltb_spec i 0); [lia|].
  destruct (Z.ltb_spec i 0); [lia|].
  destruct (nth_error l (Z.to_nat i)) as [a|] eqn:E.
  - now exists a.
  - apply nth_error_None in E. lia.
Qed.

Lemma getitem_negative (l : list A) (i : Z) :
  (- Py.len l <= i < 0)%Z ->
  exists a, Py.getitem l i = Done a
            /\ nth_error l (Z.to_nat (i + Py.len l)) = Some a.
Proof.
  unfold Py.getitem, Py.len. intros Hi.
  destruct (Z.ltb_spec i 0); [|lia].
  destruct (Z.ltb_spec (i + Z.of_nat (length l)) 0); [lia|].
  destruct (nth_error l (Z.to_nat (i + Z.of_nat (length l)))) as [a|] eqn:E.
  - now exists a.
  - apply nth_error_None in E. lia.
Qed.

Lemma getitem_out_of_range (l : list A) (i : Z) :
  (Py.len l <= i)%Z -> Py.getitem l i = Raised IndexError.
Proof.
  unfold Py.getitem, Py.len. intros Hi.
  destruct (Z.ltb_spec i 0); [lia|].
  destruct (Z.ltb_spec i 0); [lia|].
  destruct (nth_error l (Z.to_nat i)) as [a|] eqn:E; [|reflexivity].
  assert (nth_error l (Z.to_nat i) <> None) as Hn by congruence.
  apply nth_error_Some in Hn. lia.
Qed.

(** The length of [l[0:stop:step]] for a non-negative [stop]. *)
Lemma slice_from_0_length (l : list A) (stop : Z) (s : nat) :
  (0 <= stop)%Z ->
  length (Py.slice l 0 stop (Z.of_nat (S s)))
  = (Nat.min (Z.to_nat stop) (length l) + s) / S s.
Proof.
  intros Hstop. unfold Py.slice, Py.clip, Py.len.
  destruct (Z.ltb_spec 0 0); [lia|].
  destruct (Z.ltb_spec stop 0); [lia|].
  rewrite Nat2Z.id.
  replace (Z.to_nat (Z.min 0 (Z.of_nat (length l)))) with 0 by lia.
  rewrite skipn_O, stride_length by lia.
  rewrite length_firstn. f_equal. lia.
Qed.
End ListFacts.

(** ** The configuration constants *)

(** The documented figure width, 14.1, against the script's [4.7 * 3]: the
    two binary64 floats differ (Python's [4.7 * 3 == 14.1] is [False]), and
    the number the product stands for is not 141/10. *)
Lemma figure_width_is_not_14_1 :
  figsize <> (14.1, 8)%float
  /\ PrimFloat.eqb (fst figsize) 14.1 = false
  /\ ~ (float_value (fst figsize) == 14.1)%Q.
Proof.
  split; [| split].
  - intros H.
    assert (E : PrimFloat.eqb (fst figsize) 14.1 = true) by (rewrite H; reflexivity).
    vm_compute in E. discriminate E.
  - vm_compute. reflexivity.
  - intros H. vm_compute in H. discriminate H.
Qed.

(** C9. The constants of the script have the documented values: seed 2 for
    the data and for the estimator, 6 true components, 18 = 3 * 6 estimator
    slots, a dirichlet_distribution weight prior, mean precision prior 0.8,
    covariance regularisation 0, random initialisation, at most 5 iterations
    per call, tolerance 1e-5, negligible-weight threshold 0, and a grid of 3
    rows by 1 column for the one entry of [estimators] with its one
    concentration prior. The figure is 8 high; its width is the binary64
    product [4.7 * 3], which is the float next above 14.1 (it prints as
    14.100000000000001), larger than 14.1 by less than 1e-14. *)
Theorem configuration_constants :
  random_state = 2%Z
  /\ BayesianGaussianMixture.random_state the_estimator = random_state
  /\ n_components = 6%Z
  /\ Py.len means = n_components
  /\ BayesianGaussianMixture.n_components the_estimator = (3 * n_components)%Z
  /\ BayesianGaussianMixture.n_components the_estimator = 18%Z
  /\ BayesianGaussianMixture.weight_concentration_prior_type the_estimator
     = "dirichlet_distribution"%string
  /\ BayesianGaussianMixture.mean_precision_prior the_estimator = 0.8%Q
  /\ BayesianGaussianMixture.reg_covar the_estimator = 0%Q
  /\ BayesianGaussianMixture.init_params the_estimator = "random"%string
  /\ BayesianGaussianMixture.max_iter the_estimator = 5%Z
  /\ BayesianGaussianMixture.tol the_estimator = 1e-5%Q
  /\ SMALL_PROBS = 0%Q
  /\ figsize = (next_up 14.1, 8)%float
  /\ (float_value (fst figsize) == 14.100000000000001421085471520200371742248535156250)%Q
  /\ (14.1 < float_value (fst figsize) < 14.1 + 1e-14)%Q
  /\ (float_value (snd figsize) == 8)%Q
  /\ map (fun entry => snd (fst entry)) estimators = [the_estimator]
  /\ map (fun entry => gridspec_shape (snd entry)) estimators = [(3, 1)%Z].
Proof.
  repeat split; try reflexivity; vm_compute; reflexivity.
Qed.

(** ** The colours of the component contours *)

Section Colours.
Context {MC : MatplotlibColors}.

Lemma new_colors_small (m : Z) :
  (m <= 6)%Z -> new_colors m = colors.
Proof.
  intros Hm. unfold new_colors. change (Py.len colors) with 6%Z.
  destruct (Z.ltb_spec 6 m); [lia|reflexivity].
Qed.

Lemma new_colors_length (m : Z) :
  (6 < m)%Z ->
  length (new_colors m)
  = 6 + (Nat.min (Z.to_nat (4 * (m - 7))) (length CSS4_COLORS) + 3) / 4.
Proof.
  intros Hm. unfold new_colors. change (Py.len colors) with 6%Z.
  destruct (Z.ltb_spec 6 m); [|lia].
  unfold Py.append. rewrite length_app. change (length colors) with 6.
  f_equal.
  replace (4 * (m - 6 - 1))%Z with (4 * (m - 7))%Z by lia.
  apply (@slice_from_0_length _ CSS4_COLORS (4 * (m - 7))%Z 3). lia.
Qed.

Lemma new_colors_18_length :
  41 <= length CSS4_COLORS -> length (new_colors 18) = 17.
Proof.
  intros H. rewrite new_colors_length by lia.
  change (Z.to_nat (4 * (18 - 7))) with 44.
  assert (Nat.min 44 (length CSS4_COLORS) = 41
          \/ Nat.min 44 (length CSS4_COLORS) = 42
          \/ Nat.min 44 (length CSS4_COLORS) = 43
          \/ Nat.min 44 (length CSS4_COLORS) = 44) as Hmin by lia.
  destruct Hmin as [E|[E|[E|E]]]; rewrite E; reflexivity.
Qed.

(** The colour lookup of line 38 succeeds for every component as soon as
    the list is not empty and has one colour less than there are
    components. *)
Lemma contour_color_found (cs : list string) (m n : Z) :
  (1 <= Py.len cs)%Z -> (m - 1 <= Py.len cs)%Z -> (0 <= n < m)%Z ->
  exists c, Py.getitem cs (n - 1) = Done c.
Proof.
  intros Hcs Hlen Hn.
  destruct (Z.eq_dec n 0) as [->|Hn0].
  - destruct (@getitem_negative _ cs (0 - 1)%Z) as (c & Hc & _); [lia|].
    now exists c.
  - destruct (@getitem_nonneg _ cs (n - 1)%Z) as (c & Hc & _); [lia|].
    now exists c.
Qed.

(** C5. Whatever the table of named colours holds, for every number
    [m > 6] of components the list of colours after the extension of
    lines 29-31 is shorter than [m]: the slice [0:4*(new_clusters-1):4]
    takes at most [new_clusters - 1] names. *)
Theorem extended_colors_too_short (m : Z) :
  (6 < m)%Z -> (Py.len (new_colors m) < m)%Z.
Proof.
  intros Hm. unfold Py.len. rewrite new_colors_length by assumption.
  assert ((Nat.min (Z.to_nat (4 * (m - 7))) (length CSS4_COLORS) + 3) / 4
          < S (Z.to_nat (m - 7))) as Hlt.
  { apply Nat.Div0.div_lt_upper_bound. lia. }
  lia.
Qed.

End Colours.

(** ** The data generator *)

Section CombineFacts.
Context {A B : Type}.

Lemma Forall2_cons_r (R : A -> B -> Prop) (l : list A) (y : B)
    (l' : list B) :
  Forall2 R l (y :: l') ->
  exists x l0, l = x :: l0 /\ R x y /\ Forall2 R l0 l'.
Proof.
  intros H. inversion H; subst. eauto.
Qed.

Lemma combine_app_same (a b : list A) (c d : list B) :
  length a = length c ->
  combine (a ++ b) (c ++ d) = combine a c ++ combine b d.
Proof.
  revert c. induction a as [|x a IH]; intros [|y c] H; simpl in *;
    try discriminate; [reflexivity|].
  f_equal. apply IH. now injection H.
Qed.

Lemma combine_repeat (b : list A) (j : B) :
  combine b (repeat j (length b)) = map (fun p => (p, j)) b.
Proof.
  induction b as [|x b IH]; simpl; [reflexivity|]. now rewrite IH.
Qed.

Lemma map_snd_combine (a : list A) (c : list B) :
  length a = length c -> map snd (combine a c) = c.
Proof.
  revert c. induction a as [|x a IH]; intros [|y c] H; simpl in *;
    try discriminate; [reflexivity|].
  f_equal. apply IH. now injection H.
Qed.
End CombineFacts.

Section Generator.
Context {NR : NumpyRandom} {SM : SklearnMixture}.

Lemma label_blocks_range :
  label_blocks (Py.range n_components)
  = Done [repeat 0%Z 300; repeat 1%Z 500; repeat 2%Z 400;
          repeat 3%Z 400; repeat 4%Z 400; repeat 5%Z 300].
Proof. reflexivity. Qed.

(** The six draws of line 117 succeed; each is a draw of the component's
    sample count from the component's mean and covariance. *)
Lemma draw_components_range (rng : RandomState) :
  exists (blocks : list (list vec2)) (rng' : RandomState),
    draw_components rng (Py.range n_components) = Done (blocks, rng')
    /\ Forall2 (fun b c =>
                  exists g, b = fst (multivariate_normal g (fst (fst c))
                                                         (snd (fst c)) (snd c)))
               blocks (combine (combine means covars) samples).
Proof.
  change (Py.range n_components) with [0; 1; 2; 3; 4; 5]%Z.
  cbn [draw_components].
  repeat match goal with
  | |- context [Py.getitem ?l ?i] =>
      let v := eval vm_compute in (Py.getitem l i) in
      change (Py.getitem l i) with v; cbn [obind]
  end.
  repeat match goal with
  | |- context [multivariate_normal ?g ?m ?c ?n] =>
      let b := fresh "b" in let r := fresh "r" in let E := fresh "E" in
      destruct (multivariate_normal g m c n) as [b r] eqn:E; cbn [obind fst snd]
  end.
  eexists. eexists. split; [reflexivity|].
  cbn [combine means covars samples fst snd].
  repeat (apply Forall2_cons;
          [ cbn [fst snd];
            match goal with
            | E : multivariate_normal ?g _ _ _ = (?b, _)
              |- exists _, ?b = _ => exists g; exact (f_equal fst (eq_sym E))
            end | ]).
  apply Forall2_nil.
Qed.

(** The draws of line 117 are the chain [drawn_blocks], for any indices
    that [means], [covars] and [samples] all have. *)
Lemma draw_components_chain (js : list Z) :
  forall (cs : list (vec2 * mat2 * Z)) (rng : RandomState),
  omap (fun j => obind (Py.getitem means j) (fun mean_j =>
                 obind (Py.getitem covars j) (fun covar_j =>
                 obind (Py.getitem samples j) (fun samples_j =>
                 Done (mean_j, covar_j, samples_j))))) js = Done cs ->
  exists rng' : RandomState,
    draw_components rng js = Done (drawn_blocks rng cs, rng').
Proof.
  induction js as [|j js IH]; intros cs rng H.
  - injection H as <-. exists rng. reflexivity.
  - cbn [omap draw_components] in *.
    destruct (Py.getitem means j) as [m| |]; cbn [obind] in *;
      try discriminate H.
    destruct (Py.getitem covars j) as [c| |]; cbn [obind] in *;
      try discriminate H.
    destruct (Py.getitem samples j) as [n| |]; cbn [obind] in *;
      try discriminate H.
    destruct (omap _ js) as [l| |] eqn:E; cbn [obind] in H;
      try discriminate H.
    injection H as <-. cbn [drawn_blocks fst snd].
    destruct (multivariate_normal rng m c n) as [b r]. cbn [fst snd].
    destruct (IH l r eq_refl) as [r' ->]. exists r'. reflexivity.
Qed.

Lemma draw_components_drawn (rng : RandomState) :
  exists rng' : RandomState,
    draw_components rng (Py.range n_components)
    = Done (drawn_blocks rng (combine (combine means covars) samples), rng').
Proof.
  apply draw_components_chain. reflexivity.
Qed.

(** Every block of the chain has the size asked for. *)
Lemma drawn_blocks_sizes (cs : list (vec2 * mat2 * Z)) :
  draws_have_size ->
  Forall (fun c => (0 <= snd c)%Z) cs ->
  forall rng : RandomState,
    Forall2 (fun b n => length b = Z.to_nat n) (drawn_blocks rng cs)
            (map snd cs).
Proof.
  intros Hsize H. induction H as [|c cs Hc _ IH]; intros rng;
    cbn [drawn_blocks map]; constructor.
  - now apply Hsize.
  - apply IH.
Qed.

(** Block [j] of the chain is a draw for component [j]. *)
Lemma drawn_blocks_nth (cs : list (vec2 * mat2 * Z)) :
  forall (rng : RandomState) (j : nat) (d : vec2 * mat2 * Z),
  j < length cs ->
  exists g : RandomState,
    nth j (drawn_blocks rng cs) []
    = fst (multivariate_normal g (fst (fst (nth j cs d)))
                               (snd (fst (nth j cs d))) (snd (nth j cs d))).
Proof.
  induction cs as [|c cs IH]; intros rng j d Hj; cbn [length] in Hj; [lia|].
  destruct j as [|j]; cbn [drawn_blocks nth].
  - now exists rng.
  - apply IH. lia.
Qed.

Lemma generate_data_done (seed : Z) (w : World) :
  exists (blocks : list (list vec2)),
    generate_data seed w = Done ((concat blocks, expected_labels), w, [])
    /\ Forall2 (fun b c =>
                  exists g, b = fst (multivariate_normal g (fst (fst c))
                                                         (snd (fst c)) (snd c)))
               blocks (combine (combine means covars) samples).
Proof.
  destruct (draw_components_range (RandomState_seed seed))
    as (blocks & rng' & Hd & Hb).
  exists blocks. split; [|exact Hb].
  unfold generate_data, bind, lift, ret. rewrite Hd, label_blocks_range.
  reflexivity.
Qed.
End Generator.

Section GeneratorClaims.
Context {NR : NumpyRandom} {SM : SklearnMixture}.

Lemma generated_blocks (seed : Z) (w : World) :
  draws_have_size ->
  exists b0 b1 b2 b3 b4 b5 : list vec2,
    generate_data seed w
    = Done ((concat [b0; b1; b2; b3; b4; b5], expected_labels), w, [])
    /\ length b0 = 300 /\ length b1 = 500 /\ length b2 = 400
    /\ length b3 = 400 /\ length b4 = 400 /\ length b5 = 300.
Proof.
  intros Hsize.
  destruct (generate_data_done seed w) as (blocks & Hg & Hb).
  cbn [combine means covars samples] in Hb.
  repeat match goal with
  | H : Forall2 _ _ (_ :: _) |- _ =>
      let b := fresh "b" in let E := fresh "E" in
      apply Forall2_cons_r in H;
      destruct H as (b & ? & -> & [? E] & H);
      cbn [fst snd] in E;
      apply (f_equal (@length vec2)) in E;
      rewrite Hsize in E by lia
  end.
  inversion Hb; subst.
  do 6 eexists. split; [exact Hg|]. repeat split; assumption.
Qed.

(** C1. For the sample counts [300, 500, 400, 400, 400, 300] the
    generator returns 2300 points and 2300 labels, 2300 being the sum of
    the counts; label [j] occurs [samples[j]] times; and the Dataset is
    the six draws one after the other, the points of draw [j] carrying
    label [j]. The six draws are those of line 117: draw [j] is a draw of
    [samples[j]] points from [means[j]] and [covars[j]], the first from the
    generator seeded with [random_state], each next one from the generator
    the draw before it left. *)
Theorem dataset_size_and_labels :
  draws_have_size ->
  forall w : World,
  exists (X : list vec2) (y : list Z),
    generate_data random_state w = Done ((X, y), w, [])
    /\ samples = [300; 500; 400; 400; 400; 300]%Z
    /\ length X = 2300 /\ length y = 2300
    /\ length (dataset (X, y)) = 2300
    /\ Z.of_nat (length (dataset (X, y))) = fold_right Z.add 0%Z samples
    /\ (forall j : Z, (0 <= j < n_components)%Z ->
        Z.of_nat (count_occ Z.eq_dec (map snd (dataset (X, y))) j)
        = nth (Z.to_nat j) samples 0%Z)
    /\ map snd (dataset (X, y)) = expected_labels
    /\ exists blocks : list (list vec2),
         X = concat blocks
         /\ Forall2 (fun b n => length b = Z.to_nat n) blocks samples
         /\ dataset (X, y) = tag_blocks blocks
         /\ blocks = drawn_blocks (RandomState_seed random_state)
                                  (combine (combine means covars) samples)
         /\ (forall j : nat, j < 6 ->
             exists g : RandomState,
               nth j blocks []
               = fst (multivariate_normal g (nth j means (0, 0)%Q)
                        (nth j covars ((0, 0), (0, 0))%Q)
                        (nth j samples 0%Z))).
Proof.
  intros Hsize w.
  destruct (draw_components_drawn (RandomState_seed random_state))
    as [rng' Hd].
  assert (Hg : generate_data random_state w
               = Done ((concat (drawn_blocks (RandomState_seed random_state)
                                  (combine (combine means covars) samples)),
                        expected_labels), w, [])).
  { unfold generate_data, bind, lift, ret. rewrite Hd, label_blocks_range.
    reflexivity. }
  assert (Hnth : forall j : nat, j < 6 ->
            exists g : RandomState,
              nth j (drawn_blocks (RandomState_seed random_state)
                       (combine (combine means covars) samples)) []
              = fst (multivariate_normal g (nth j means (0, 0)%Q)
                       (nth j covars ((0, 0), (0, 0))%Q)
                       (nth j samples 0%Z))).
  { intros j Hj.
    destruct (@drawn_blocks_nth NR (combine (combine means covars) samples)
                (RandomState_seed random_state) j
                ((0, 0)%Q, ((0, 0), (0, 0))%Q, 0%Z)) as [g Eg];
      [exact Hj|].
    exists g. rewrite Eg.
    do 6 (destruct j as [|j]; [reflexivity|]). lia. }
  assert (Hsz : Forall2 (fun b n => length b = Z.to_nat n)
                  (drawn_blocks (RandomState_seed random_state)
                     (combine (combine means covars) samples)) samples).
  { apply (@drawn_blocks_sizes NR (combine (combine means covars) samples)
             Hsize).
    cbn [combine means covars samples].
    repeat constructor; cbn [snd]; lia. }
  remember (drawn_blocks (RandomState_seed random_state)
              (combine (combine means covars) samples)) as blocks eqn:Hblocks.
  assert (exists b0 b1 b2 b3 b4 b5 : list vec2,
            blocks = [b0; b1; b2; b3; b4; b5]
            /\ length b0 = 300 /\ length b1 = 500 /\ length b2 = 400
            /\ length b3 = 400 /\ length b4 = 400 /\ length b5 = 300)
    as (b0 & b1 & b2 & b3 & b4 & b5 & Eb & L0 & L1 & L2 & L3 & L4 & L5).
  { clear - Hsz. unfold samples in Hsz.
    repeat match goal with
    | H : Forall2 _ _ (_ :: _) |- _ =>
        let b := fresh "b" in let L := fresh "L" in
        apply Forall2_cons_r in H;
        destruct H as (b & ? & -> & L & H)
    end.
    inversion Hsz; subst.
    do 6 eexists. split; [reflexivity|]. repeat split; assumption. }
  rewrite Eb in Hg, Hnth. rewrite Eb.
  exists (concat [b0; b1; b2; b3; b4; b5]), expected_labels.
  assert (length (concat [b0; b1; b2; b3; b4; b5]) = 2300) as HX.
  { cbn [concat]. rewrite !length_app, L0, L1, L2, L3, L4, L5. reflexivity. }
  assert (length expected_labels = 2300) as Hy.
  { unfold expected_labels. rewrite !length_app, !repeat_length. reflexivity. }
  assert (map snd (dataset (concat [b0; b1; b2; b3; b4; b5], expected_labels))
          = expected_labels) as Hsnd.
  { unfold dataset. cbn [fst snd]. apply map_snd_combine. congruence. }
  split; [exact Hg|]. split; [reflexivity|]. split; [exact HX|].
  split; [exact Hy|]. split.
  { unfold dataset. cbn [fst snd]. rewrite length_combine, HX, Hy. reflexivity. }
  split.
  { unfold dataset. cbn [fst snd]. rewrite length_combine, HX, Hy. reflexivity. }
  split.
  { intros j Hj. rewrite Hsnd. unfold n_components in Hj.
    assert (j = 0 \/ j = 1 \/ j = 2 \/ j = 3 \/ j = 4 \/ j = 5)%Z
      as [->|[->|[->|[->|[->| ->]]]]] by lia;
      vm_compute; reflexivity. }
  split; [exact Hsnd|].
  exists [b0; b1; b2; b3; b4; b5]. split; [reflexivity|]. split.
  { unfold samples. repeat constructor; assumption. }
  split; [|split; [reflexivity | exact Hnth]].
  unfold dataset, tag_blocks, expected_labels, Py.enumerate.
  cbn [fst snd concat length seq map combine].
  rewrite <- L0 at 1. rewrite combine_app_same, combine_repeat
    by (now rewrite repeat_length).
  rewrite <- L1 at 1. rewrite combine_app_same, combine_repeat
    by (now rewrite repeat_length).
  rewrite <- L2 at 1. rewrite combine_app_same, combine_repeat
    by (now rewrite repeat_length).
  rewrite <- L3 at 1. rewrite combine_app_same, combine_repeat
    by (now rewrite repeat_length).
  rewrite <- L4 at 1. rewrite combine_app_same, combine_repeat
    by (now rewrite repeat_length).
  rewrite app_nil_r. rewrite <- L5 at 1. rewrite combine_repeat.
  rewrite app_nil_r. reflexivity.
Qed.

(** C2. Two runs of the generator with the same seed return the same
    points and the same labels in the same order, whatever the state of
    the rest of the program (numpy's global generator included), and
    leave that state as it was. *)
Theorem data_generator_deterministic (seed1 seed2 : Z) (w1 w2 : World) :
  seed1 = seed2 ->
  exists (X : list vec2) (y : list Z),
    generate_data seed1 w1 = Done ((X, y), w1, [])
    /\ generate_data seed2 w2 = Done ((X, y), w2, []).
Proof.
  intros <-.
  destruct (draw_components_range (RandomState_seed seed1))
    as (blocks & rng' & Hd & _).
  exists (concat blocks), expected_labels.
  unfold generate_data, bind, lift, ret.
  rewrite Hd, label_blocks_range. split; reflexivity.
Qed.
End GeneratorClaims.

(** ** Grids: ravel, reshape and evaluation at every point *)

Section ShapeFacts.
Context {A : Type}.

Lemma firstn_exact (a b : list A) (c : nat) :
  length a = c -> firstn c (a ++ b) = a.
Proof.
  intros <-. rewrite firstn_app, Nat.sub_diag, firstn_all. cbn [firstn].
  apply app_nil_r.
Qed.

Lemma skipn_exact (a b : list A) (c : nat) :
  length a = c -> skipn c (a ++ b) = b.
Proof.
  intros <-. rewrite skipn_app, Nat.sub_diag, skipn_all. reflexivity.
Qed.

Lemma concat_shape_length (a : list (list A)) (r c : nat) :
  has_shape a r c -> length (concat a) = r * c.
Proof.
  intros [Hr Hc]. subst r. induction Hc as [|row a Hrow _ IH];
    cbn [concat length]; [reflexivity|].
  rewrite length_app, IH, Hrow. lia.
Qed.

Lemma chunk_concat (a : list (list A)) (r c : nat) :
  has_shape a r c -> Py.chunk r c (concat a) = a.
Proof.
  intros [Hr Hc]. subst r. induction Hc as [|row a Hrow _ IH];
    cbn [concat length Py.chunk]; [reflexivity|].
  rewrite firstn_exact, skipn_exact, IH by assumption. reflexivity.
Qed.

(** The shape numpy reports is the shape of the rows, or (0, 0). *)
Lemma reshape_concat (a : list (list A)) (r c : nat) (sh : nat * nat) :
  has_shape a r c ->
  sh = (r, c) \/ (r = 0 /\ sh = (0, 0)) ->
  Py.reshape (concat a) sh = Done a.
Proof.
  intros Ha [->|[-> ->]].
  - unfold Py.reshape. rewrite (concat_shape_length Ha), Nat.eqb_refl.
    now rewrite (chunk_concat Ha).
  - destruct Ha as [Hl _]. destruct a; [reflexivity|discriminate].
Qed.

Lemma shape_of_has_shape (a : list (list A)) (r c : nat) :
  has_shape a r c ->
  Py.shape a = (r, c) \/ (r = 0 /\ Py.shape a = (0, 0)).
Proof.
  intros [Hr Hc]. unfold Py.shape. destruct Hc as [|row a Hrow _].
  - right. cbn in *. now subst.
  - left. cbn [hd]. now rewrite Hr, Hrow.
Qed.
End ShapeFacts.

Section GridFacts.
Context {A : Type}.

Lemma grid_map_shape (f : vec2 -> A) (xx yy : array2) (r c : nat) :
  has_shape xx r c -> has_shape yy r c -> has_shape (grid_map f xx yy) r c.
Proof.
  intros [Hxr Hxc] [Hyr Hyc]. unfold grid_map. split.
  - rewrite length_map, length_combine. lia.
  - apply Forall_forall. intros row Hin.
    apply in_map_iff in Hin. destruct Hin as ([rx ry] & <- & Hin).
    cbn [fst snd]. rewrite length_map, length_combine.
    rewrite Forall_forall in Hxc, Hyc.
    rewrite (Hxc rx (in_combine_l _ _ _ _ Hin)).
    rewrite (Hyc ry (in_combine_r _ _ _ _ Hin)). lia.
Qed.

Lemma grid_map_concat (f : vec2 -> A) (xx yy : array2) (c : nat) :
  Forall (fun row => length row = c) xx ->
  Forall (fun row => length row = c) yy ->
  concat (grid_map f xx yy) = map f (combine (concat xx) (concat yy)).
Proof.
  intros Hx. revert yy. induction Hx as [|rx xx Hrx _ IH]; intros yy Hy.
  - reflexivity.
  - destruct Hy as [|ry yy Hry Hy]; cbn [concat].
    + unfold grid_map. cbn [combine map concat].
      now rewrite combine_nil.
    + unfold grid_map in *. cbn [combine map concat fst snd].
      rewrite IH by assumption.
      rewrite combine_app_same by congruence. now rewrite map_app.
Qed.

(** The list comprehension over [np.c_[xx.ravel(), yy.ravel()]] followed
    by [reshape(xx.shape)] is [f] at every grid point, row by row. *)
Lemma reshape_scores (f : vec2 -> A) (xx yy : array2) (r c : nat) :
  has_shape xx r c -> has_shape yy r c ->
  Py.c_ (Py.ravel xx) (Py.ravel yy)
  = Done (combine (concat xx) (concat yy))
  /\ Py.reshape (map f (combine (concat xx) (concat yy))) (Py.shape xx)
     = Done (grid_map f xx yy).
Proof.
  intros Hx Hy. split.
  - unfold Py.c_, Py.ravel.
    rewrite (concat_shape_length Hx), (concat_shape_length Hy), Nat.eqb_refl.
    reflexivity.
  - rewrite <- (grid_map_concat f (proj2 Hx) (proj2 Hy)).
    apply reshape_concat with (r := r) (c := c).
    + now apply grid_map_shape.
    + now apply shape_of_has_shape.
Qed.

Lemma grid_map_nth (f : vec2 -> A) (xx yy : array2) (i j : nat)
    (d : A) (r c : nat) :
  has_shape xx r c -> has_shape yy r c -> i < r -> j < c ->
  nth j (nth i (grid_map f xx yy) []) d
  = f (nth j (nth i xx []) 0%Q, nth j (nth i yy []) 0%Q).
Proof.
  intros [Hxr Hxc] [Hyr Hyc] Hi Hj. unfold grid_map.
  assert (length (nth i xx []) = c) as Lx.
  { rewrite Forall_forall in Hxc. apply Hxc, nth_In. lia. }
  assert (length (nth i yy []) = c) as Ly.
  { rewrite Forall_forall in Hyc. apply Hyc, nth_In. lia. }
  set (F := fun rows : list Q * list Q => map f (combine (fst rows) (snd rows))).
  rewrite (nth_indep _ [] (F ([], [])))
    by (rewrite length_map, length_combine; lia).
  rewrite (map_nth F (combine xx yy) ([], []) i).
  rewrite combine_nth by lia. unfold F. cbn [fst snd].
  rewrite (nth_indep _ d (f (0%Q, 0%Q)))
    by (rewrite length_map, length_combine; lia).
  rewrite (map_nth f). rewrite combine_nth by lia. reflexivity.
Qed.
End GridFacts.

(** ** What each function of the script does *)

Section RunFacts.
Context {NR : NumpyRandom} {SM : SklearnMixture} {SS : ScipyStats}
        {MC : MatplotlibColors}.

Lemma bind_done {A B : Type} (m : M A) (k : A -> M B) (w w1 w2 : World)
    (a : A) (b : B) (t1 t2 : list event) :
  m w = Done (a, w1, t1) -> k a w1 = Done (b, w2, t2) ->
  bind m k w = Done (b, w2, t1 ++ t2).
Proof.
  intros H1 H2. unfold bind. now rewrite H1, H2.
Qed.

Lemma for_each_done {A : Type} (l : list A) (body : A -> M unit)
    (f : A -> list event) (w : World) :
  (forall x, In x l -> body x w = Done (tt, w, f x)) ->
  for_each l body w = Done (tt, w, flat_map f l).
Proof.
  induction l as [|x l IH]; intros H; cbn [for_each flat_map].
  - reflexivity.
  - apply bind_done with (a := tt) (w1 := w).
    + apply H. now left.
    + apply IH. intros y Hy. apply H. now right.
Qed.

Lemma flat_map_single {A B : Type} (g : A -> B) (l : list A) :
  flat_map (fun x => [g x]) l = map g l.
Proof.
  induction l as [|x l IH]; cbn [flat_map map app]; now rewrite ?IH.
Qed.

Lemma flat_map_of_nat {B : Type} (g : nat -> B) (l : list nat) :
  flat_map (fun z => [g (Z.to_nat z)]) (map Z.of_nat l) = map g l.
Proof.
  induction l as [|x l IH]; cbn [flat_map map app]; [reflexivity|].
  now rewrite IH, Nat2Z.id.
Qed.

Lemma getitem_nth {A : Type} (l : list A) (n : nat) (d : A) :
  n < length l -> Py.getitem l (Z.of_nat n) = Done (nth n l d).
Proof.
  intros Hn.
  destruct (@getitem_nonneg _ l (Z.of_nat n)) as (a & Ha & Hnth).
  - unfold Py.len. lia.
  - rewrite Ha. rewrite Nat2Z.id in Hnth.
    now rewrite (nth_error_nth _ _ d Hnth).
Qed.

Lemma getitem_contour_color (cs : list string) (n : nat) :
  1 <= length cs -> n <= length cs ->
  Py.getitem cs (Z.of_nat n - 1) = Done (contour_color cs n).
Proof.
  intros Hcs Hn. unfold contour_color. destruct n as [|n'].
  - cbn [Nat.eqb].
    destruct (@getitem_negative _ cs (Z.of_nat 0 - 1)%Z) as (a & Ha & Hnth).
    + unfold Py.len. lia.
    + rewrite Ha. unfold Py.len in Hnth.
      replace (Z.to_nat (Z.of_nat 0 - 1 + Z.of_nat (length cs)))
        with (length cs - 1) in Hnth by lia.
      now rewrite (nth_error_nth _ _ EmptyString Hnth).
  - cbn [Nat.eqb].
    replace (Z.of_nat (S n') - 1)%Z with (Z.of_nat n') by lia.
    replace (S n' - 1) with n' by lia.
    apply getitem_nth. lia.
Qed.

Lemma new_colors_nonempty (m : Z) : 6 <= length (new_colors m).
Proof.
  destruct (Z.le_gt_cases m 6) as [H|H].
  - now rewrite new_colors_small.
  - rewrite new_colors_length by lia. lia.
Qed.

Lemma range_len {A : Type} (l : list A) :
  Py.range (Py.len l) = map Z.of_nat (seq 0 (length l)).
Proof.
  unfold Py.range, Py.len. now rewrite Nat2Z.id.
Qed.

(** [plot_contours] on a fitted estimator and a rectangular grid: it
    returns, leaves the state as it is, and draws the mixture score and
    every component's density at every grid point. *)
Lemma plot_contours_done (ax : axis) (e : Estimator) (s : Fitted)
    (ws : list Q) (xx yy : array2) (r c : nat) (w : World) :
  fitted e = Some s ->
  has_shape xx r c -> has_shape yy r c ->
  length (means_ s) <= length (covariances_ s) ->
  length (means_ s) <= S (length (new_colors (Py.len (means_ s)))) ->
  plot_contours ax e ws (means_ s) (covariances_ s) xx yy w
  = Done (tt, w, contours_trace ax s xx yy).
Proof.
  intros Hfit Hx Hy Hcov Hcol.
  destruct (reshape_scores (score_samples s) Hx Hy) as [Hc Hmix].
  unfold plot_contours, contours_trace.
  apply bind_done with (a := combine (concat xx) (concat yy)) (w1 := w)
                       (t1 := []) (t2 := _ :: _).
  { unfold lift. now rewrite Hc. }
  apply bind_done with (a := map (score_samples s)
                                 (combine (concat xx) (concat yy)))
                       (w1 := w) (t1 := []) (t2 := _ :: _).
  { unfold lift. rewrite (omap_done _ (score_samples s)); [reflexivity|].
    intros x _. unfold score_fn_dpgmm, attr. now rewrite Hfit. }
  apply bind_done with (a := grid_map (score_samples s) xx yy) (w1 := w)
                       (t1 := []) (t2 := _ :: _).
  { unfold lift. now rewrite Hmix. }
  apply bind_done with (a := tt) (w1 := w) (t1 := [_]) (t2 := _).
  { reflexivity. }
  rewrite range_len, <- (flat_map_of_nat (component_contour ax s xx yy)).
  apply for_each_done. intros z Hz.
  apply in_map_iff in Hz. destruct Hz as (n & <- & Hn).
  apply in_seq in Hn. rewrite Nat2Z.id. unfold component_contour.
  set (mean_n := nth n (means_ s) (0%Q, 0%Q)).
  set (covar_n := nth n (covariances_ s) ((0%Q, 0%Q), (0%Q, 0%Q))).
  destruct (reshape_scores (fun x => score_fn_mvn x mean_n covar_n) Hx Hy)
    as [_ Hcomp].
  apply bind_done with (a := combine (concat xx) (concat yy)) (w1 := w)
                       (t1 := []) (t2 := [_]).
  { unfold lift. now rewrite Hc. }
  apply bind_done with (a := map (fun x => score_fn_mvn x mean_n covar_n)
                                 (combine (concat xx) (concat yy)))
                       (w1 := w) (t1 := []) (t2 := [_]).
  { unfold lift.
    rewrite (omap_done _ (fun x => score_fn_mvn x mean_n covar_n));
      [reflexivity|].
    intros x _.
    rewrite (getitem_nth _ (0%Q, 0%Q)) by lia. cbn [obind].
    rewrite (getitem_nth _ ((0%Q, 0%Q), (0%Q, 0%Q))) by lia. reflexivity. }
  apply bind_done with (a := grid_map (fun x => score_fn_mvn x mean_n covar_n)
                                      xx yy)
                       (w1 := w) (t1 := []) (t2 := [_]).
  { unfold lift. now rewrite Hcomp. }
  apply bind_done with (a := contour_color (new_colors (Py.len (means_ s))) n)
                       (w1 := w) (t1 := []) (t2 := [_]).
  { unfold lift. rewrite getitem_contour_color; [reflexivity| |lia].
    pose proof (new_colors_nonempty (Py.len (means_ s))). lia. }
  reflexivity.
Qed.
End RunFacts.

(** ** The colours [plot_contours] draws the components in *)

Section ContourColours.
Context {NR : NumpyRandom} {SM : SklearnMixture} {SS : ScipyStats}
        {MC : MatplotlibColors}.

Lemma components_of_contours_trace (ax : axis) (s : Fitted)
    (xx yy : array2) :
  pick component_of (contours_trace ax s xx yy)
  = map (contour_color (new_colors (Py.len (means_ s))))
        (seq 0 (length (means_ s))).
Proof.
  unfold contours_trace. cbn [pick component_of].
  generalize (seq 0 (length (means_ s))). intros l.
  induction l as [|n l IH]; cbn [map pick]; [reflexivity|].
  cbn [component_contour component_of]. now rewrite IH.
Qed.

(** Eighteen components on a list of seventeen colours: the last colour,
    then the seventeen in their order. *)
Lemma contour_colors_of_17 (cs : list string) :
  length cs = 17 ->
  map (contour_color cs) (seq 0 18) = last cs EmptyString :: cs
  /\ Some (last cs EmptyString) = nth_error cs 16.
Proof.
  intros H.
  do 17 (destruct cs as [|? cs]; [discriminate H|]).
  destruct cs; [split; reflexivity | discriminate H].
Qed.

(** C10. With a table of at least 41 named colours (matplotlib's has 148)
    and the 18 slots of the script, the extension adds 11 names to the 6
    palette colours, and the lookup at index [n - 1] succeeds for every
    component [n] of the 18, though the list has 17 colours. So
    [plot_contours], called on a fitted estimator with 18 components and a
    rectangular grid, returns without an IndexError, and the component
    contours it draws are, in the order of the components, in the last
    colour of the list for component 0 (index 16) and in the colour at
    index [n - 1] for component [n >= 1]: components 1 to 6 in the six
    palette colours. *)
Theorem contour_colors_within_bounds (ax : axis) (e : Estimator)
    (s : Fitted) (ws : list Q) (xx yy : array2) (r c : nat) (w : World) :
  41 <= length CSS4_COLORS ->
  fitted e = Some s ->
  has_shape xx r c -> has_shape yy r c ->
  length (means_ s) = 18 -> length (covariances_ s) = 18 ->
  Py.len colors = 6%Z
  /\ Py.len (new_colors 18) = 17%Z
  /\ firstn 6 (new_colors 18) = colors
  /\ (forall n : Z, (0 <= n < 18)%Z ->
      exists c,
        Py.getitem (new_colors 18) (n - 1) = Done c
        /\ nth_error (new_colors 18)
                     (if (n =? 0)%Z then 16 else Z.to_nat (n - 1)) = Some c)
  /\ exists t : list event,
       plot_contours ax e ws (means_ s) (covariances_ s) xx yy w
       = Done (tt, w, t)
       /\ length (pick component_of t) = 18
       /\ pick component_of t
          = last (new_colors 18) EmptyString :: new_colors 18
       /\ nth_error (pick component_of t) 0 = nth_error (new_colors 18) 16
       /\ (forall n : nat, 1 <= n < 18 ->
           nth_error (pick component_of t) n
           = nth_error (new_colors 18) (n - 1))
       /\ firstn 6 (skipn 1 (pick component_of t)) = colors.
Proof.
  intros H Hfit Hx Hy Hm Hc.
  pose proof (new_colors_18_length H) as Hlen.
  assert (Py.len (means_ s) = 18%Z) as Hlm.
  { unfold Py.len. rewrite Hm. reflexivity. }
  split; [reflexivity|]. split; [unfold Py.len; lia|]. split.
  { unfold new_colors. reflexivity. }
  split.
  { intros n Hn. destruct (Z.eqb_spec n 0) as [->|Hn0].
    + destruct (@getitem_negative _ (new_colors 18) (0 - 1)%Z)
        as (c0 & Hc0 & Hnth); [unfold Py.len; lia|].
      exists c0. split; [exact Hc0|].
      unfold Py.len in Hnth. rewrite Hlen in Hnth. exact Hnth.
    + destruct (@getitem_nonneg _ (new_colors 18) (n - 1)%Z)
        as (c0 & Hc0 & Hnth); [unfold Py.len; lia|].
      now exists c0. }
  exists (contours_trace ax s xx yy).
  split.
  { apply plot_contours_done with (r := r) (c := c); try assumption.
    - lia.
    - rewrite Hlm, Hlen, Hm. lia. }
  rewrite components_of_contours_trace, Hlm, Hm.
  destruct (contour_colors_of_17 _ Hlen) as [Hall Hlast].
  rewrite Hall.
  split; [cbn [length]; now rewrite Hlen|].
  split; [reflexivity|].
  split; [exact Hlast|].
  split.
  { intros n Hn. destruct n as [|n]; [lia|].
    cbn [nth_error]. f_equal. lia. }
  cbn [skipn]. unfold new_colors. reflexivity.
Qed.
End ContourColours.

Section PlotFacts.
Context {NR : NumpyRandom} {SM : SklearnMixture} {SS : ScipyStats}
        {MC : MatplotlibColors}.

Lemma meshgrid_shape (xs ys : list Q) :
  has_shape (fst (Py.meshgrid xs ys)) (length ys) (length xs)
  /\ has_shape (snd (Py.meshgrid xs ys)) (length ys) (length xs).
Proof.
  unfold Py.meshgrid, has_shape. cbn [fst snd]. rewrite !length_map.
  repeat split; apply Forall_forall; intros row Hin;
    apply in_map_iff in Hin; destruct Hin as (y & <- & _);
    now rewrite ?length_map.
Qed.

Lemma set_limits (ax : axis) (a b : Q * Q) (w : World) :
  set_axes ax {| xlim := xlim (axes_of ax
                   (set_axes ax {| xlim := a; ylim := ylim (axes_of ax w) |} w));
                 ylim := b |}
           (set_axes ax {| xlim := a; ylim := ylim (axes_of ax w) |} w)
  = set_axes ax {| xlim := a; ylim := b |} w.
Proof. destruct ax; reflexivity. Qed.

Lemma estimator_set_axes (ax : axis) (a : Axes) (w : World) :
  estimator (set_axes ax a w) = estimator w.
Proof. destruct ax; reflexivity. Qed.

(** [plot_results] on a fitted estimator and a rectangular grid. *)
Lemma plot_results_done (ax1 ax2 : axis) (e : Estimator) (s : Fitted)
    (xx yy : array2) (r c : nat) (w : World) :
  fitted e = Some s ->
  has_shape xx r c -> has_shape yy r c ->
  length (means_ s) <= length (covariances_ s) ->
  length (means_ s) <= S (length (new_colors (Py.len (means_ s)))) ->
  plot_results ax1 ax2 e xx yy w
  = Done (tt, set_axes ax2 bar_axes w, results_trace ax1 ax2 s xx yy).
Proof.
  intros Hfit Hx Hy Hcov Hcol.
  unfold plot_results, set_xlim, set_ylim, get, put, emit, lift, bind, attr.
  rewrite Hfit. cbv beta iota.
  rewrite (plot_contours_done ax1 e (weights_ s) w Hfit Hx Hy Hcov Hcol).
  cbv beta iota.
  rewrite (for_each_done _ _ (bar_events ax2)).
  2:{ intros [k q] _. reflexivity. }
  cbv beta iota. rewrite set_limits.
  unfold results_trace, bars_trace, shown_weights, bar_axes.
  cbn [app]. reflexivity.
Qed.

(** [init_plots] when every label has a colour. *)
Lemma init_plots_done (ax1 ax2 : axis) (X : list vec2) (y : list Z)
    (cs : list string) (title : string) (plot_title generate_mesh : bool)
    (w : World) :
  Py.take colors y = Done cs ->
  init_plots ax1 ax2 X y title plot_title generate_mesh w
  = Done ((ax1, ax2,
           if generate_mesh then fst view_mesh else [],
           if generate_mesh then snd view_mesh else []),
          set_axes ax1 view_axes w,
          init_trace ax1 ax2 X cs plot_title generate_mesh).
Proof.
  intros Htake.
  unfold init_plots, set_xlim, set_ylim, get_xlim, get_ylim, get, put, emit,
    ret, lift, bind.
  rewrite Htake. cbv beta iota. rewrite set_limits.
  unfold init_trace, view_axes.
  destruct plot_title, generate_mesh, ax1; reflexivity.
Qed.
End PlotFacts.

(** ** The run as a whole *)

Section RunOfScript.
Context {NR : NumpyRandom} {SM : SklearnMixture} {SS : ScipyStats}
        {MC : MatplotlibColors}.

Lemma take_label_colors : Py.take colors expected_labels = Done label_colors.
Proof.
  unfold Py.take, label_colors. apply omap_done. intros j Hj.
  assert (j = 0 \/ j = 1 \/ j = 2 \/ j = 3 \/ j = 4 \/ j = 5)%Z as Hcases.
  { unfold expected_labels in Hj.
    repeat (apply in_app_or in Hj; destruct Hj as [Hj|Hj]);
      apply repeat_spec in Hj; lia. }
  destruct Hcases as [->|[->|[->|[->|[->| ->]]]]]; reflexivity.
Qed.

Lemma view_mesh_shape :
  has_shape (fst view_mesh) (length mesh_ys) (length mesh_xs)
  /\ has_shape (snd view_mesh) (length mesh_ys) (length mesh_xs).
Proof. apply meshgrid_shape. Qed.

Lemma slots_conditions (s : Fitted) :
  slots_ok 18 (Some s) = true -> 41 <= length CSS4_COLORS ->
  length (means_ s) = 18
  /\ length (means_ s) <= length (covariances_ s)
  /\ length (means_ s) <= S (length (new_colors (Py.len (means_ s)))).
Proof.
  cbn [slots_ok]. intros Hs Hcss.
  apply andb_true_iff in Hs. destruct Hs as [Hm Hc].
  apply Nat.eqb_eq in Hm, Hc. unfold Py.len.
  rewrite Hm, Hc. cbn [Z.of_nat Pos.of_succ_nat Pos.succ].
  rewrite (new_colors_18_length Hcss). lia.
Qed.

Variable p : BayesianGaussianMixture.t.
Variable X : list vec2.
Variable title : string.
Hypothesis Hcss : 41 <= length CSS4_COLORS.

Lemma redraw_done (g : RandomState) (e : Estimator) (k : nat)
    (a1 a2 : Axes) :
  e = fitted_estimator p X k ->
  slots_ok 18 (fit_n p X (S k)) = true ->
  redraw Ax1 Ax2 X expected_labels title 0 (fst view_mesh) (snd view_mesh)
         {| np_random := g; estimator := e; ax1 := a1; ax2 := a2 |}
  = Done (tt, drawn_world p X g (S k), redraw_trace X label_colors (nth_fit p X k)).
Proof.
  intros -> Hslots.
  destruct (slots_conditions _ Hslots Hcss) as (_ & Hcov & Hcol).
  destruct view_mesh_shape as [Hx Hy].
  unfold redraw, estimator_fit, clear, get_estimator, get, put, emit, ret,
    bind.
  cbv beta iota.
  rewrite (init_plots_done _ _ _ _ _ _ _ _ take_label_colors).
  cbv beta iota.
  cbn [estimator set_axes set_estimator fitted_estimator settings fitted
       np_random ax1 ax2].
  erewrite plot_results_done with (s := nth_fit p X k);
    [ | reflexivity | exact Hx | exact Hy | exact Hcov | exact Hcol ].
  reflexivity.
Qed.

Lemma converged_attr (k : nat) :
  attr converged_ (fitted_estimator p X (S k))
  = Done (is_converged (fit_n p X (S k))).
Proof. reflexivity. Qed.

(** The loop makes exactly [n] turns when the estimator reports
    convergence after [n] more fits, given fuel for [n + 1] tests. *)
Lemma while_not_converged_done (g : RandomState) :
  forall (n k fuel : nat),
    n < fuel ->
    (forall i, k <= i < k + n -> is_converged (fit_n p X (S i)) = false) ->
    (forall i, k < i <= k + n -> slots_ok 18 (fit_n p X (S i)) = true) ->
    is_converged (fit_n p X (S (k + n))) = true ->
    while_not_converged fuel
      (redraw Ax1 Ax2 X expected_labels title 0
              (fst view_mesh) (snd view_mesh))
      (drawn_world p X g (S k))
    = Done (tt, drawn_world p X g (S (k + n)),
            flat_map (fun i => redraw_trace X label_colors (nth_fit p X i))
                     (seq (S k) n)).
Proof.
  induction n as [|n IH]; intros k fuel Hfuel Hnot Hslots Hconv;
    (destruct fuel as [|fuel]; [lia|]); cbn [while_not_converged].
  - unfold get_estimator, get, ret, lift, bind. cbv beta iota.
    cbn [estimator drawn_world]. rewrite converged_attr.
    rewrite Nat.add_0_r in Hconv. rewrite Hconv. cbv beta iota.
    rewrite Nat.add_0_r. reflexivity.
  - unfold get_estimator, get, ret, lift, bind. cbv beta iota.
    cbn [estimator drawn_world]. rewrite converged_attr.
    rewrite (Hnot k) by lia. cbv beta iota.
    fold (drawn_world p X g (S k)). unfold drawn_world at 1.
    rewrite (@redraw_done g _ (S k) _ _ eq_refl) by (apply Hslots; lia).
    rewrite (IH (S k) fuel).
    + cbn [seq flat_map app].
      replace (S k + n) with (k + S n) by lia. reflexivity.
    + lia.
    + intros i Hi. apply Hnot. lia.
    + intros i Hi. apply Hslots. lia.
    + replace (S k + n) with (k + S n) by lia. exact Hconv.
Qed.
End RunOfScript.

Section WholeRun.
Context {NR : NumpyRandom} {SM : SklearnMixture} {SS : ScipyStats}
        {MC : MatplotlibColors}.

Lemma converges_after_spec (m : nat) (p : BayesianGaussianMixture.t)
    (X : list vec2) (n : nat) :
  converges_after m p X n = true ->
  (forall i, i < n -> is_converged (fit_n p X (S i)) = false)
  /\ (forall i, i <= n -> slots_ok m (fit_n p X (S i)) = true)
  /\ is_converged (fit_n p X (S n)) = true.
Proof.
  unfold converges_after. intros H.
  apply andb_true_iff in H. destruct H as [H Hconv].
  apply andb_true_iff in H. destruct H as [Hall Hlast].
  rewrite forallb_forall in Hall.
  assert (forall i, i < n ->
            slots_ok m (fit_n p X (S i)) = true
            /\ is_converged (fit_n p X (S i)) = false) as Hi.
  { intros i Hlt. specialize (Hall (S i)).
    rewrite in_seq in Hall. specialize (Hall ltac:(lia)).
    apply andb_true_iff in Hall. destruct Hall as [Hs Hc].
    split; [exact Hs|]. now apply negb_true_iff in Hc. }
  split; [|split].
  - intros i Hlt. now apply Hi.
  - intros i Hle. destruct (Nat.eq_dec i n) as [->|Hne]; [exact Hlast|].
    apply Hi. lia.
  - exact Hconv.
Qed.

Lemma generate_data_points (w : World) :
  generate_data random_state w
  = Done ((generated_points, expected_labels), w, []).
Proof.
  destruct (draw_components_range (RandomState_seed random_state))
    as (blocks & rng' & Hd & _).
  unfold generate_data, generated_points, bind, lift, ret.
  rewrite Hd, label_blocks_range. reflexivity.
Qed.

(** Lines 132-157 for the one concentration prior, when the estimator
    reports convergence after [n] turns of the loop. *)
Lemma run_prior_done (X : list vec2) (title : string) (c : Q)
    (g : RandomState) (a1 a2 : Axes) (n fuel : nat) :
  41 <= length CSS4_COLORS ->
  converges_after 18 (run_settings c) X n = true ->
  n < fuel ->
  run_prior fuel X expected_labels title 0 c
    {| np_random := g;
       estimator := {| settings := the_estimator; fitted := None |};
       ax1 := a1; ax2 := a2 |}
  = Done (tt, drawn_world (run_settings c) X g (S n),
          [Subplot Ax1; Subplot Ax2]
          ++ init_trace Ax1 Ax2 X label_colors true false
          ++ [Pause 0.1; RawInput prompt; Fit; Clear Ax1; Clear Ax2]
          ++ init_trace Ax1 Ax2 X label_colors true true
          ++ results_trace Ax1 Ax2 (nth_fit (run_settings c) X 0)
                           (fst view_mesh) (snd view_mesh)
          ++ [Pause 0.001; RawInput prompt]
          ++ flat_map (fun k => redraw_trace X label_colors
                                  (nth_fit (run_settings c) X k)) (seq 1 n)
          ++ [Print true; RawInput prompt]).
Proof.
  intros Hcss Hconv Hfuel.
  destruct (converges_after_spec _ _ _ _ Hconv) as (Hnot & Hslots & Hlast).
  destruct (slots_conditions _ (Hslots 0 ltac:(lia)) Hcss)
    as (_ & Hcov & Hcol).
  destruct view_mesh_shape as [Hx Hy].
  unfold run_prior, subplot, raw_input, estimator_fit, clear, get_estimator,
    get, put, emit, ret, bind.
  cbv beta iota.
  rewrite (init_plots_done _ _ _ _ _ _ _ _ take_label_colors).
  cbv beta iota.
  rewrite (init_plots_done _ _ _ _ _ _ _ _ take_label_colors).
  cbv beta iota.
  cbn [estimator set_axes set_estimator settings fitted np_random ax1 ax2].
  erewrite plot_results_done with (s := nth_fit (run_settings c) X 0);
    [ | reflexivity | exact Hx | exact Hy | exact Hcov | exact Hcol ].
  cbn [set_axes estimator np_random ax1 ax2].
  change {| np_random := g;
            estimator := {| settings := _; fitted := Some _ |};
            ax1 := view_axes; ax2 := bar_axes |}
    with (drawn_world (run_settings c) X g 1).
  rewrite (@while_not_converged_done _ _ _ _ (run_settings c) X title Hcss g
             n 0 fuel Hfuel).
  - cbn [estimator drawn_world Nat.add]. unfold lift.
    rewrite converged_attr, Hlast. cbn [app]. reflexivity.
  - intros i Hi. apply Hnot. lia.
  - intros i Hi. apply Hslots. lia.
  - exact Hlast.
Qed.

(** The whole script: it ends, in [final_world], after the calls of
    [run_trace]. *)
Lemma main_done (n fuel : nat) (w : World) :
  41 <= length CSS4_COLORS ->
  converges_after 18 (run_settings 1) generated_points n = true ->
  n < fuel ->
  main fuel w
  = Done (tt, final_world (run_settings 1) generated_points n,
          run_trace (run_settings 1) generated_points label_colors n).
Proof.
  intros Hcss Hconv Hfuel.
  unfold main, np_random_seed, bind, get, put.
  rewrite generate_data_points. cbv beta iota.
  cbn [estimators for_each fst snd]. unfold run_entry, the_title.
  unfold bind, get, put, emit, ret. cbv beta iota.
  cbn [Py.enumerate length seq map combine for_each fst snd].
  unfold bind, ret, set_estimator, set_np_random.
  cbn [np_random estimator ax1 ax2 Z.of_nat].
  erewrite run_prior_done with (n := n);
    [ | exact Hcss | exact Hconv | exact Hfuel ].
  cbv beta iota. cbn [app]. rewrite !app_nil_r. reflexivity.
Qed.
End WholeRun.

(** ** Reading the trace of a run *)

Section TraceFacts.
Context {NR : NumpyRandom} {SM : SklearnMixture} {SS : ScipyStats}
        {MC : MatplotlibColors}.

Lemma pick_flat_map {A B C : Type} (f : B -> option C) (g : A -> list B)
    (l : list A) :
  pick f (flat_map g l) = flat_map (fun x => pick f (g x)) l.
Proof.
  induction l as [|x l IH]; cbn [flat_map]; [reflexivity|].
  now rewrite pick_app, IH.
Qed.

Lemma flat_map_nil {A B : Type} (l : list A) :
  flat_map (fun _ : A => @nil B) l = [].
Proof. induction l; cbn [flat_map app]; auto. Qed.

Lemma flat_map_repeat {A B : Type} (b : list B) (l : list A) :
  flat_map (fun _ : A => b) l = concat (repeat b (length l)).
Proof.
  induction l as [|x l IH]; cbn [flat_map length repeat concat];
    [reflexivity|]. now rewrite IH.
Qed.

(** *** Phases *)

Lemma phases_init_trace (a1 a2 : axis) (X : list vec2) (cs : list string)
    (pt gm : bool) :
  phases (init_trace a1 a2 X cs pt gm) = [Init].
Proof. destruct pt, gm; reflexivity. Qed.

Lemma phases_contours_trace (ax : axis) (s : Fitted) (xx yy : array2) :
  phases (contours_trace ax s xx yy) = [Fitted_].
Proof.
  unfold phases, contours_trace. cbn [pick phase_of]. f_equal.
  apply pick_none. intros e He. apply in_map_iff in He.
  destruct He as (n & <- & _). reflexivity.
Qed.

Lemma phases_bars_trace (ax : axis) (ws : list Q) :
  phases (bars_trace ax ws) = [].
Proof.
  unfold phases, bars_trace. rewrite pick_flat_map. apply flat_map_nil.
Qed.

Lemma phases_results_trace (a1 a2 : axis) (s : Fitted) (xx yy : array2) :
  phases (results_trace a1 a2 s xx yy) = [Fitted_].
Proof.
  unfold results_trace, phases. rewrite !pick_app.
  fold (phases (contours_trace a1 s xx yy)).
  fold (phases (bars_trace a2 (shown_weights s))).
  rewrite phases_contours_trace, phases_bars_trace. reflexivity.
Qed.

Lemma phases_redraw_trace (X : list vec2) (cs : list string) (s : Fitted) :
  phases (redraw_trace X cs s) = [Init; Fitted_].
Proof.
  unfold redraw_trace, phases. rewrite !pick_app.
  fold (phases (init_trace Ax1 Ax2 X cs true false)).
  fold (phases (results_trace Ax1 Ax2 s (fst view_mesh) (snd view_mesh))).
  rewrite phases_init_trace, phases_results_trace. reflexivity.
Qed.

Lemma phases_run_trace (p : BayesianGaussianMixture.t) (X : list vec2)
    (cs : list string) (n : nat) :
  phases (run_trace p X cs n) = run_phases n.
Proof.
  unfold run_trace, run_phases, phases. rewrite !pick_app, pick_flat_map.
  fold (phases (init_trace Ax1 Ax2 X cs true false)).
  fold (phases (init_trace Ax1 Ax2 X cs true true)).
  fold (phases (results_trace Ax1 Ax2 (nth_fit p X 0)
                              (fst view_mesh) (snd view_mesh))).
  rewrite !phases_init_trace, phases_results_trace.
  rewrite (flat_map_ext
             (fun k => pick phase_of (redraw_trace X cs (nth_fit p X k)))
             (fun _ => [Init; Fitted_]))
    by (intros k; apply phases_redraw_trace).
  reflexivity.
Qed.

(** *** Steps *)

Lemma steps_init_trace (a1 a2 : axis) (X : list vec2) (cs : list string)
    (pt gm : bool) :
  steps (init_trace a1 a2 X cs pt gm) = [DrawInit].
Proof. destruct pt, gm; reflexivity. Qed.

Lemma steps_contours_trace (ax : axis) (s : Fitted) (xx yy : array2) :
  steps (contours_trace ax s xx yy) = [DrawFitted].
Proof.
  unfold steps, contours_trace. cbn [pick step_of]. f_equal.
  apply pick_none. intros e He. apply in_map_iff in He.
  destruct He as (n & <- & _). reflexivity.
Qed.

Lemma steps_bars_trace (ax : axis) (ws : list Q) :
  steps (bars_trace ax ws) = [].
Proof.
  unfold steps, bars_trace. rewrite pick_flat_map. apply flat_map_nil.
Qed.

Lemma steps_results_trace (a1 a2 : axis) (s : Fitted) (xx yy : array2) :
  steps (results_trace a1 a2 s xx yy) = [DrawFitted].
Proof.
  unfold results_trace, steps. rewrite !pick_app.
  fold (steps (contours_trace a1 s xx yy)).
  fold (steps (bars_trace a2 (shown_weights s))).
  rewrite steps_contours_trace, steps_bars_trace. reflexivity.
Qed.

Lemma steps_redraw_trace (X : list vec2) (cs : list string) (s : Fitted) :
  steps (redraw_trace X cs s)
  = [CallFit; DrawInit; DrawFitted; Sleep 0.001%Q].
Proof.
  unfold redraw_trace, steps. rewrite !pick_app.
  fold (steps (init_trace Ax1 Ax2 X cs true false)).
  fold (steps (results_trace Ax1 Ax2 s (fst view_mesh) (snd view_mesh))).
  rewrite steps_init_trace, steps_results_trace. reflexivity.
Qed.

Lemma steps_run_trace (p : BayesianGaussianMixture.t) (X : list vec2)
    (cs : list string) (n : nat) :
  steps (run_trace p X cs n) = run_steps n.
Proof.
  unfold run_trace, run_steps, steps. rewrite !pick_app, pick_flat_map.
  fold (steps (init_trace Ax1 Ax2 X cs true false)).
  fold (steps (init_trace Ax1 Ax2 X cs true true)).
  fold (steps (results_trace Ax1 Ax2 (nth_fit p X 0)
                             (fst view_mesh) (snd view_mesh))).
  rewrite !steps_init_trace, steps_results_trace.
  rewrite (flat_map_ext
             (fun k => pick step_of (redraw_trace X cs (nth_fit p X k)))
             (fun _ => [CallFit; DrawInit; DrawFitted; Sleep 0.001%Q]))
    by (intros k; apply steps_redraw_trace).
  reflexivity.
Qed.

(** A Wait lies between any two Fitted drawings exactly when the loop
    makes at most one turn. *)
Lemma wait_between_fitted_run_phases (n : nat) :
  wait_between_fitted false (run_phases n) = Nat.leb n 1.
Proof.
  unfold run_phases. destruct n as [|[|n]]; reflexivity.
Qed.
End TraceFacts.

(** ** The renderer's phases *)

Section RendererPhases.
Context {NR : NumpyRandom} {SM : SklearnMixture} {SS : ScipyStats}
        {MC : MatplotlibColors}.

(** C4, as the script has it. When the estimator reports convergence
    after [n] turns of the loop, the run ends and its phases are
    Init, Wait, (Init) Fitted, Wait, then [n] times (Init) Fitted with no
    Wait between them, then the final Wait. Step by step: the raw data are
    drawn, and after a pause of 0.1 s a prompt blocks before the first fit;
    the first fit is drawn, and after a pause of 1 ms a second prompt
    blocks; then each of the [n] turns of the loop is a fit, its drawing and
    a pause of 1 ms, so that between the Fitted drawings of two turns
    there are, drawing calls apart, only the pause and the next fit; last
    come the print of the convergence flag, then true, and the final
    prompt. Hence a Wait lies between any two Fitted drawings only if the
    loop makes at most one turn. *)
Theorem renderer_phases (n fuel : nat) (w : World) :
  41 <= length CSS4_COLORS ->
  converges_after 18 (run_settings 1) generated_points n = true ->
  n < fuel ->
  exists (w' : World) (t : list event),
    main fuel w = Done (tt, w', t)
    /\ phases t = [Init; Wait; Init; Fitted_; Wait]
                  ++ flat_map (fun _ => [Init; Fitted_]) (seq 1 n)
                  ++ [Wait]
    /\ (exists t0, t = t0 ++ [Print true; RawInput prompt])
    /\ is_converged (fitted (estimator w')) = true
    /\ wait_between_fitted false (phases t) = Nat.leb n 1
    /\ steps t = [DrawInit; Sleep 0.1%Q; Prompt;
                  CallFit; DrawInit; DrawFitted; Sleep 0.001%Q; Prompt]
                 ++ flat_map
                      (fun _ => [CallFit; DrawInit; DrawFitted; Sleep 0.001%Q])
                      (seq 1 n)
                 ++ [PrintFlag true; Prompt].
Proof.
  intros Hcss Hconv Hfuel.
  exists (final_world (run_settings 1) generated_points n).
  exists (run_trace (run_settings 1) generated_points label_colors n).
  split; [now apply main_done|].
  rewrite phases_run_trace, steps_run_trace.
  split; [reflexivity|]. split; [|split; [|split]].
  - unfold run_trace. eexists. rewrite !app_assoc. reflexivity.
  - apply (converges_after_spec _ _ _ _ Hconv).
  - apply wait_between_fitted_run_phases.
  - reflexivity.
Qed.
End RendererPhases.

(** C4 as claimed fails: with an estimator that reports convergence at its
    third fit the loop draws twice in a row, and no prompt lies between
    the two drawings. *)
Lemma no_wait_inside_the_loop :
  ~ @wait_between_any_two_fitted Toy.numpy_random (Toy.mixture 3)
      Toy.scipy_stats Toy.css4 10 Toy.world.
Proof.
  intros H.
  pose proof (@main_done Toy.numpy_random (Toy.mixture 3) Toy.scipy_stats
                Toy.css4 2 10 Toy.world) as Hrun.
  specialize (Hrun ltac:(vm_compute; lia) ltac:(vm_compute; reflexivity)
                   ltac:(lia)).
  specialize (H _ _ Hrun).
  rewrite phases_run_trace, wait_between_fitted_run_phases in H.
  discriminate H.
Qed.

Lemma renderer_phases_witness :
  exists (w' : @World Toy.numpy_random (Toy.mixture 3)) (t : list event),
    @main Toy.numpy_random (Toy.mixture 3) Toy.scipy_stats Toy.css4
          10 Toy.world = Done (tt, w', t)
    /\ phases t = [Init; Wait; Init; Fitted_; Wait; Init; Fitted_;
                   Init; Fitted_; Wait]
    /\ (exists t0, t = t0 ++ [Print true; RawInput prompt])
    /\ is_converged (fitted (estimator w')) = true
    /\ wait_between_fitted false (phases t) = false
    /\ steps t = [DrawInit; Sleep 0.1%Q; Prompt;
                  CallFit; DrawInit; DrawFitted; Sleep 0.001%Q; Prompt;
                  CallFit; DrawInit; DrawFitted; Sleep 0.001%Q;
                  CallFit; DrawInit; DrawFitted; Sleep 0.001%Q;
                  PrintFlag true; Prompt].
Proof.
  apply (@renderer_phases Toy.numpy_random (Toy.mixture 3) Toy.scipy_stats
           Toy.css4 2 10 Toy.world).
  - vm_compute. lia.
  - vm_compute. reflexivity.
  - lia.
Defined.

(** ** The mesh *)

Section MeshFacts.
Local Open Scope Q_scope.

Lemma mesh_step_value : mesh_step == 0.24.
Proof. apply Qeq_bool_iff. vm_compute. reflexivity. Qed.

Lemma mesh_xs_points :
  mesh_xs = map (fun i => - 4 + inject_Z (Z.of_nat i) * mesh_step)
                (seq 0 34).
Proof.
  unfold mesh_xs, Py.arange.
  replace (Z.to_nat (Qceiling ((4 - - 4) / mesh_step))) with 34%nat
    by (vm_compute; reflexivity).
  reflexivity.
Qed.

Lemma mesh_ys_points :
  mesh_ys = map (fun i => - 6 + inject_Z (Z.of_nat i) * mesh_step)
                (seq 0 50).
Proof.
  unfold mesh_ys, Py.arange.
  replace (Z.to_nat (Qceiling ((6 - - 6) / mesh_step))) with 50%nat
    by (vm_compute; reflexivity).
  reflexivity.
Qed.

Lemma within_bounds (lo hi : Q) (l : list Q) :
  forallb (fun x => Qle_bool lo x && negb (Qle_bool hi x)) l = true ->
  Forall (fun x => lo <= x /\ x < hi) l.
Proof.
  intros H. rewrite forallb_forall in H. apply Forall_forall.
  intros x Hx. specialize (H x Hx).
  apply andb_true_iff in H. destruct H as [Hlo Hhi].
  apply Qle_bool_iff in Hlo. split; [exact Hlo|].
  apply Qnot_le_lt. intros Hle. apply Qle_bool_iff in Hle.
  rewrite Hle in Hhi. discriminate.
Qed.

Lemma mesh_xs_in_view : Forall (fun x => - 4 <= x /\ x < 4) mesh_xs.
Proof. apply within_bounds. vm_compute. reflexivity. Qed.

Lemma mesh_ys_in_view : Forall (fun y => - 6 <= y /\ y < 6) mesh_ys.
Proof. apply within_bounds. vm_compute. reflexivity. Qed.

Lemma mesh_lengths : length mesh_xs = 34%nat /\ length mesh_ys = 50%nat.
Proof.
  rewrite mesh_xs_points, mesh_ys_points, !length_map, !length_seq.
  split; reflexivity.
Qed.
End MeshFacts.

Section MeshInTheRun.
Context {NR : NumpyRandom} {SM : SklearnMixture} {SS : ScipyStats}
        {MC : MatplotlibColors}.

Lemma run_trace_split (p : BayesianGaussianMixture.t) (X : list vec2)
    (cs : list string) (n : nat) :
  run_trace p X cs n
  = before_mesh X cs
    ++ Meshgrid (fst view_mesh) (snd view_mesh) :: after_mesh p X cs n.
Proof.
  unfold run_trace, before_mesh, after_mesh, init_trace.
  cbn [app]. reflexivity.
Qed.

Lemma picks_before_mesh (X : list vec2) (cs : list string) :
  pick mesh_of (before_mesh X cs) = []
  /\ pick contour_grid_of (before_mesh X cs) = []
  /\ pick fit_of (before_mesh X cs) = [tt].
Proof. repeat split; reflexivity. Qed.

Lemma picks_contours_trace (ax : axis) (s : Fitted) (xx yy : array2) :
  pick mesh_of (contours_trace ax s xx yy) = []
  /\ pick fit_of (contours_trace ax s xx yy) = []
  /\ pick contour_grid_of (contours_trace ax s xx yy)
     = repeat (xx, yy) (S (length (means_ s))).
Proof.
  unfold contours_trace. cbn [pick mesh_of fit_of contour_grid_of repeat].
  repeat split.
  - apply pick_none. intros e He. apply in_map_iff in He.
    destruct He as (n & <- & _). reflexivity.
  - apply pick_none. intros e He. apply in_map_iff in He.
    destruct He as (n & <- & _). reflexivity.
  - f_equal.
    assert (forall l : list nat,
              pick contour_grid_of (map (component_contour ax s xx yy) l)
              = repeat (xx, yy) (length l)) as Hl.
    { induction l as [|x l IH]; cbn [map pick length repeat];
        [reflexivity|].
      cbn [component_contour contour_grid_of]. now rewrite IH. }
    rewrite Hl, length_seq. reflexivity.
Qed.

Lemma picks_bars_trace (ax : axis) (ws : list Q) :
  pick mesh_of (bars_trace ax ws) = []
  /\ pick fit_of (bars_trace ax ws) = []
  /\ pick contour_grid_of (bars_trace ax ws) = [].
Proof.
  unfold bars_trace. rewrite !pick_flat_map.
  repeat split; apply flat_map_nil.
Qed.

Lemma picks_results_trace (a1 a2 : axis) (s : Fitted) (xx yy : array2) :
  pick mesh_of (results_trace a1 a2 s xx yy) = []
  /\ pick fit_of (results_trace a1 a2 s xx yy) = []
  /\ pick contour_grid_of (results_trace a1 a2 s xx yy)
     = repeat (xx, yy) (S (length (means_ s))).
Proof.
  destruct (picks_contours_trace a1 s xx yy) as (Hm & Hf & Hg).
  destruct (picks_bars_trace a2 (shown_weights s)) as (Bm & Bf & Bg).
  unfold results_trace. rewrite !pick_app, Hm, Hf, Hg, Bm, Bf, Bg.
  cbn [pick mesh_of fit_of contour_grid_of app].
  rewrite app_nil_r. repeat split; reflexivity.
Qed.

Lemma picks_redraw_trace (X : list vec2) (cs : list string) (s : Fitted) :
  pick mesh_of (redraw_trace X cs s) = []
  /\ pick fit_of (redraw_trace X cs s) = [tt]
  /\ pick contour_grid_of (redraw_trace X cs s)
     = repeat (fst view_mesh, snd view_mesh) (S (length (means_ s))).
Proof.
  destruct (picks_results_trace Ax1 Ax2 s (fst view_mesh) (snd view_mesh))
    as (Hm & Hf & Hg).
  unfold redraw_trace. rewrite !pick_app, Hm, Hf, Hg.
  cbn [pick mesh_of fit_of contour_grid_of app init_trace].
  rewrite app_nil_r. repeat split; reflexivity.
Qed.

Lemma picks_after_mesh (p : BayesianGaussianMixture.t) (X : list vec2)
    (cs : list string) (n : nat) :
  (forall i, i <= n -> slots_ok 18 (fit_n p X (S i)) = true) ->
  pick mesh_of (after_mesh p X cs n) = []
  /\ pick fit_of (after_mesh p X cs n) = repeat tt n
  /\ pick contour_grid_of (after_mesh p X cs n)
     = repeat (fst view_mesh, snd view_mesh) (19 * S n).
Proof.
  intros Hslots.
  assert (forall i, i <= n -> length (means_ (nth_fit p X i)) = 18) as Hlen.
  { intros i Hi. specialize (Hslots i Hi). cbn [fit_n slots_ok] in Hslots.
    apply andb_true_iff in Hslots. destruct Hslots as [Hm _].
    now apply Nat.eqb_eq in Hm. }
  destruct (picks_results_trace Ax1 Ax2 (nth_fit p X 0)
              (fst view_mesh) (snd view_mesh)) as (Hm & Hf & Hg).
  unfold after_mesh. rewrite !pick_app, !pick_flat_map, Hm, Hf, Hg.
  rewrite (Hlen 0) by lia.
  cbn [pick mesh_of fit_of contour_grid_of].
  assert (forall a m, a + m <= S n -> 1 <= a ->
            flat_map (fun k => pick mesh_of
                                 (redraw_trace X cs (nth_fit p X k)))
                     (seq a m) = []
            /\ flat_map (fun k => pick fit_of
                                    (redraw_trace X cs (nth_fit p X k)))
                        (seq a m) = repeat tt m
            /\ flat_map (fun k => pick contour_grid_of
                                    (redraw_trace X cs (nth_fit p X k)))
                        (seq a m)
               = repeat (fst view_mesh, snd view_mesh) (19 * m)) as Hloop.
  { intros a m. revert a. induction m as [|m IH]; intros a Ham Ha.
    - repeat split; reflexivity.
    - destruct (IH (S a) ltac:(lia) ltac:(lia)) as (I1 & I2 & I3).
      destruct (picks_redraw_trace X cs (nth_fit p X a)) as (R1 & R2 & R3).
      cbn [seq flat_map]. rewrite I1, I2, I3, R1, R2, R3.
      rewrite (Hlen a) by lia.
      repeat split; try reflexivity.
      rewrite <- repeat_app. f_equal. lia. }
  destruct (Hloop 1 n ltac:(lia) ltac:(lia)) as (L1 & L2 & L3).
  rewrite L1, L2, L3. repeat split.
  - cbn [app]. now rewrite app_nil_r.
  - cbn [app]. rewrite app_nil_r.
    change (repeat (fst view_mesh, snd view_mesh) 19
            ++ repeat (fst view_mesh, snd view_mesh) (19 * n)
            = repeat (fst view_mesh, snd view_mesh) (19 * S n)).
    rewrite <- repeat_app. f_equal. lia.
Qed.

(** C7. In a run, [np.meshgrid] is called exactly once: after the first
    fit and before any contour is drawn; the grid is the regular grid of
    step [max(8/50, 12/50) = 0.24] over the view, 34 abscissas from -4 and
    50 ordinates from -6, each short of the upper bound; and every contour
    of every later drawing, the 19 of each of the [n + 1] drawings, is
    evaluated on that same grid. *)
Theorem mesh_computed_once (n fuel : nat) (w : World) :
  41 <= length CSS4_COLORS ->
  converges_after 18 (run_settings 1) generated_points n = true ->
  n < fuel ->
  exists (w' : World) (pre post : list event),
    main fuel w
    = Done (tt, w', pre ++ Meshgrid (fst view_mesh) (snd view_mesh) :: post)
    /\ pick mesh_of pre = [] /\ pick mesh_of post = []
    /\ pick fit_of pre = [tt] /\ pick contour_grid_of pre = []
    /\ pick fit_of post = repeat tt n
    /\ pick contour_grid_of post
       = repeat (fst view_mesh, snd view_mesh) (19 * S n)
    /\ view_mesh = Py.meshgrid (Py.arange (- 4) 4 mesh_step)
                               (Py.arange (- 6) 6 mesh_step)
    /\ mesh_step = Qmax ((4 - - 4) / 50) ((6 - - 6) / 50)
    /\ (mesh_step == 0.24)%Q
    /\ Py.arange (- 4) 4 mesh_step
       = map (fun i => (- 4 + inject_Z (Z.of_nat i) * mesh_step)%Q) (seq 0 34)
    /\ Py.arange (- 6) 6 mesh_step
       = map (fun i => (- 6 + inject_Z (Z.of_nat i) * mesh_step)%Q) (seq 0 50)
    /\ Forall (fun x => (- 4 <= x /\ x < 4)%Q) (Py.arange (- 4) 4 mesh_step)
    /\ Forall (fun y => (- 6 <= y /\ y < 6)%Q) (Py.arange (- 6) 6 mesh_step)
    /\ has_shape (fst view_mesh) 50 34
    /\ has_shape (snd view_mesh) 50 34.
Proof.
  intros Hcss Hconv Hfuel.
  destruct (converges_after_spec _ _ _ _ Hconv) as (_ & Hslots & _).
  destruct (picks_before_mesh generated_points label_colors)
    as (B1 & B2 & B3).
  destruct (picks_after_mesh (run_settings 1) generated_points label_colors
              Hslots) as (A1 & A2 & A3).
  destruct view_mesh_shape as [Sx Sy]. destruct mesh_lengths as [Lx Ly].
  rewrite Lx, Ly in Sx, Sy.
  exists (final_world (run_settings 1) generated_points n).
  exists (before_mesh generated_points label_colors).
  exists (after_mesh (run_settings 1) generated_points label_colors n).
  rewrite <- run_trace_split.
  split; [now apply main_done|].
  repeat (split; [assumption|]).
  split; [reflexivity|]. split; [reflexivity|].
  split; [exact mesh_step_value|].
  split; [exact mesh_xs_points|]. split; [exact mesh_ys_points|].
  split; [exact mesh_xs_in_view|]. split; [exact mesh_ys_in_view|].
  split; assumption.
Qed.
End MeshInTheRun.

(** ** The weight bar chart *)

Section BarChart.
Context {NR : NumpyRandom} {SM : SklearnMixture} {SS : ScipyStats}
        {MC : MatplotlibColors}.

Lemma gt_spec (a b : Q) : Py.gt a b = true <-> (b < a)%Q.
Proof.
  unfold Py.gt. rewrite negb_true_iff. split.
  - intros H. apply Qnot_le_lt. intros Hle.
    apply Qle_bool_iff in Hle. congruence.
  - intros H. destruct (Qle_bool a b) eqn:E; [|reflexivity].
    apply Qle_bool_iff in E. exfalso. exact (Qlt_not_le _ _ H E).
Qed.

Lemma map_snd_enumerate {A : Type} (l : list A) :
  map snd (Py.enumerate l) = l.
Proof.
  unfold Py.enumerate. apply map_snd_combine.
  now rewrite length_map, length_seq.
Qed.

Lemma bars_of_contours_trace (ax : axis) (s : Fitted) (xx yy : array2) :
  pick bar_of (contours_trace ax s xx yy) = []
  /\ pick text_of (contours_trace ax s xx yy) = [].
Proof.
  unfold contours_trace. cbn [pick bar_of text_of].
  split; apply pick_none; intros e He; apply in_map_iff in He;
    destruct He as (n & <- & _); reflexivity.
Qed.

Lemma bars_of_bars_trace (ax : axis) (ws : list Q) :
  pick bar_of (bars_trace ax ws) = Py.enumerate ws
  /\ pick text_of (bars_trace ax ws)
     = map (fun kw => (fst kw, (snd kw + 0.007)%Q, Percent1 (snd kw * 100)%Q))
           (Py.enumerate ws).
Proof.
  unfold bars_trace. generalize (Py.enumerate ws). intros l.
  rewrite !pick_flat_map. split.
  - induction l as [|[k q] l IH]; cbn [flat_map]; [reflexivity|].
    rewrite IH. reflexivity.
  - induction l as [|[k q] l IH]; cbn [flat_map map]; [reflexivity|].
    rewrite IH. reflexivity.
Qed.

(** C6. On a fitted estimator and a rectangular grid, [plot_results]
    returns; the bars it draws are the weights strictly above
    [SMALL_PROBS = 0], in the order of the slots and numbered from 0, each
    with its percentage label 0.007 above it; a weight at or below the
    threshold gets no bar; the y range of the chart is [0, 1.1]; and the
    estimator, with all its slots, is what it was. *)
Theorem bar_chart_shows_weights_above_threshold (a1 a2 : axis)
    (e : Estimator) (s : Fitted) (xx yy : array2) (r c : nat) (w : World) :
  fitted e = Some s ->
  has_shape xx r c -> has_shape yy r c ->
  length (means_ s) <= length (covariances_ s) ->
  length (means_ s) <= S (length (new_colors (Py.len (means_ s)))) ->
  exists (w' : World) (t : list event),
    plot_results a1 a2 e xx yy w = Done (tt, w', t)
    /\ estimator w' = estimator w
    /\ pick bar_of t
       = Py.enumerate (filter (fun q => Py.gt q SMALL_PROBS) (weights_ s))
    /\ pick text_of t
       = map (fun kw => (fst kw, (snd kw + 0.007)%Q, Percent1 (snd kw * 100)%Q))
             (pick bar_of t)
    /\ (forall q : Q,
          In q (map snd (pick bar_of t))
          <-> In q (weights_ s) /\ (SMALL_PROBS < q)%Q)
    /\ (forall q : Q, (q <= SMALL_PROBS)%Q -> ~ In q (map snd (pick bar_of t)))
    /\ SMALL_PROBS = 0%Q
    /\ In (SetYlim a2 0 1.1) t.
Proof.
  intros Hfit Hx Hy Hcov Hcol.
  exists (set_axes a2 bar_axes w), (results_trace a1 a2 s xx yy).
  destruct (bars_of_contours_trace a1 s xx yy) as [Cb Ct].
  destruct (bars_of_bars_trace a2 (shown_weights s)) as [Bb Bt].
  assert (pick bar_of (results_trace a1 a2 s xx yy)
          = Py.enumerate (shown_weights s)) as Hbars.
  { unfold results_trace. rewrite !pick_app, Cb, Bb.
    cbn [pick bar_of app]. now rewrite app_nil_r. }
  assert (forall q : Q,
            In q (map snd (pick bar_of (results_trace a1 a2 s xx yy)))
            <-> In q (weights_ s) /\ (SMALL_PROBS < q)%Q) as Hin.
  { intros q. rewrite Hbars, map_snd_enumerate. unfold shown_weights.
    rewrite filter_In, gt_spec. reflexivity. }
  split; [now apply plot_results_done with (r := r) (c := c)|].
  split; [apply estimator_set_axes|].
  split; [exact Hbars|]. split.
  { rewrite Hbars. unfold results_trace. rewrite !pick_app, Ct, Bt.
    cbn [pick text_of app]. now rewrite app_nil_r. }
  split; [exact Hin|]. split.
  { intros q Hq Hbar. apply Hin in Hbar. destruct Hbar as [_ Hlt].
    exact (Qlt_not_le _ _ Hlt Hq). }
  split; [reflexivity|].
  unfold results_trace. apply in_or_app. right. apply in_or_app. right.
  apply in_or_app. right. cbn. auto.
Qed.
End BarChart.

(** ** The scores on the grid *)

Section ScoresOnTheGrid.
Context {NR : NumpyRandom} {SM : SklearnMixture} {SS : ScipyStats}
        {MC : MatplotlibColors}.

(** C8. On a fitted estimator and a grid of [r] rows and [c] columns,
    [plot_contours] returns and leaves the whole state as it was; the
    array of its filled contour has the shape of the grid and holds, at
    row [i] and column [j], the mixture score [score_fn_dpgmm] of the grid
    point [(xx[i][j], yy[i][j])]; it then draws one contour per component,
    in the order of the slots, whose array holds [score_fn_mvn] of that
    grid point for the component's mean and covariance; and a second call
    makes the same calls over again. *)
Theorem contours_cover_the_grid (ax : axis) (e : Estimator) (s : Fitted)
    (ws : list Q) (xx yy : array2) (r c : nat) (w : World) :
  fitted e = Some s ->
  has_shape xx r c -> has_shape yy r c ->
  length (means_ s) <= length (covariances_ s) ->
  length (means_ s) <= S (length (new_colors (Py.len (means_ s)))) ->
  exists (zz : array2) (zs : list array2) (cs : list string),
    plot_contours ax e ws (means_ s) (covariances_ s) xx yy w
    = Done (tt, w,
            Contourf ax xx yy zz
            :: map (fun zc => Contour ax xx yy (fst zc) (snd zc))
                   (combine zs cs))
    /\ has_shape zz r c
    /\ (forall i j, i < r -> j < c ->
          score_fn_dpgmm (nth j (nth i xx []) 0%Q, nth j (nth i yy []) 0%Q) e
          = Done (nth j (nth i zz []) 0%Q))
    /\ length zs = length (means_ s) /\ length cs = length (means_ s)
    /\ (forall n i j, n < length (means_ s) -> i < r -> j < c ->
          has_shape (nth n zs []) r c
          /\ nth j (nth i (nth n zs []) []) 0%Q
             = score_fn_mvn (nth j (nth i xx []) 0%Q, nth j (nth i yy []) 0%Q)
                 (nth n (means_ s) (0%Q, 0%Q))
                 (nth n (covariances_ s) ((0%Q, 0%Q), (0%Q, 0%Q))))
    /\ bind (plot_contours ax e ws (means_ s) (covariances_ s) xx yy)
            (fun _ => plot_contours ax e ws (means_ s) (covariances_ s) xx yy)
            w
       = Done (tt, w,
               (Contourf ax xx yy zz
                :: map (fun zc => Contour ax xx yy (fst zc) (snd zc))
                       (combine zs cs))
               ++ (Contourf ax xx yy zz
                   :: map (fun zc => Contour ax xx yy (fst zc) (snd zc))
                          (combine zs cs))).
Proof.
  intros Hfit Hx Hy Hcov Hcol.
  set (comp := fun n : nat =>
         grid_map (fun x => score_fn_mvn x (nth n (means_ s) (0%Q, 0%Q))
                              (nth n (covariances_ s)
                                   ((0%Q, 0%Q), (0%Q, 0%Q)))) xx yy).
  set (col := fun n : nat =>
         contour_color (new_colors (Py.len (means_ s))) n).
  exists (grid_map (score_samples s) xx yy).
  exists (map comp (seq 0 (length (means_ s)))).
  exists (map col (seq 0 (length (means_ s)))).
  assert (plot_contours ax e ws (means_ s) (covariances_ s) xx yy w
          = Done (tt, w,
                  Contourf ax xx yy (grid_map (score_samples s) xx yy)
                  :: map (fun zc => Contour ax xx yy (fst zc) (snd zc))
                         (combine (map comp (seq 0 (length (means_ s))))
                                  (map col (seq 0 (length (means_ s)))))))
    as Hrun.
  { rewrite (plot_contours_done ax e ws w Hfit Hx Hy Hcov Hcol).
    unfold contours_trace. do 3 f_equal.
    generalize (seq 0 (length (means_ s))). intros l.
    induction l as [|n l IH]; cbn [map combine]; [reflexivity|].
    now rewrite IH. }
  split; [exact Hrun|].
  split; [now apply grid_map_shape|]. split.
  { intros i j Hi Hj. unfold score_fn_dpgmm, attr. rewrite Hfit.
    now rewrite (grid_map_nth (score_samples s) 0%Q Hx Hy Hi Hj). }
  split; [now rewrite length_map, length_seq|].
  split; [now rewrite length_map, length_seq|]. split.
  { intros n i j Hn Hi Hj.
    rewrite (nth_indep _ [] (comp 0)) by (now rewrite length_map, length_seq).
    rewrite (map_nth comp), seq_nth by assumption. cbn [Nat.add]. split.
    - now apply grid_map_shape.
    - unfold comp. now rewrite (grid_map_nth _ 0%Q Hx Hy Hi Hj). }
  now apply bind_done with (a := tt) (w1 := w).
Qed.
End ScoresOnTheGrid.

(** ** The theorems at work on the small instances *)

Lemma toy_draws_have_size : @draws_have_size Toy.numpy_random.
Proof.
  intros g mean covar n Hn. cbn [multivariate_normal Toy.numpy_random fst].
  apply repeat_length.
Qed.

Lemma dataset_size_and_labels_witness :
  @draws_have_size Toy.numpy_random
  /\ exists (X : list vec2) (y : list Z),
       @generate_data Toy.numpy_random (Toy.mixture 3) random_state Toy.world
       = Done ((X, y), Toy.world, [])
       /\ length X = 2300 /\ length y = 2300.
Proof.
  split; [exact toy_draws_have_size|].
  destruct (@dataset_size_and_labels Toy.numpy_random (Toy.mixture 3)
              toy_draws_have_size Toy.world)
    as (X & y & Hg & _ & HX & Hy & _).
  exists X, y. split; [exact Hg|]. split; [exact HX|exact Hy].
Defined.

Lemma data_generator_deterministic_witness :
  exists (X : list vec2) (y : list Z),
    @generate_data Toy.numpy_random (Toy.mixture 3) 2 Toy.world
    = Done ((X, y), Toy.world, [])
    /\ @generate_data Toy.numpy_random (Toy.mixture 3) 2
         (@Build_World Toy.numpy_random (Toy.mixture 3) 7%Z
            (@Build_Estimator (Toy.mixture 3) the_estimator (Some 5))
            view_axes bar_axes)
       = Done ((X, y),
               @Build_World Toy.numpy_random (Toy.mixture 3) 7%Z
                 (@Build_Estimator (Toy.mixture 3) the_estimator (Some 5))
                 view_axes bar_axes, []).
Proof.
  apply (@data_generator_deterministic Toy.numpy_random (Toy.mixture 3)
           2%Z 2%Z).
  reflexivity.
Defined.

Lemma extended_colors_too_short_witness :
  (6 < 18)%Z /\ (Py.len (@new_colors Toy.css4 18) < 18)%Z.
Proof.
  split; [reflexivity|].
  apply (@extended_colors_too_short Toy.css4 18%Z). reflexivity.
Defined.

Lemma toy_grid_shape : has_shape Toy.xx 2 2 /\ has_shape Toy.yy 2 2.
Proof. repeat split; repeat constructor. Qed.

Lemma contour_colors_within_bounds_witness :
  41 <= length (@CSS4_COLORS Toy.css4)
  /\ Py.len (@new_colors Toy.css4 18) = 17%Z
  /\ (exists c, Py.getitem (@new_colors Toy.css4 18) (0 - 1) = Done c)
  /\ exists t : list event,
       @plot_contours Toy.numpy_random (Toy.mixture 3) Toy.scipy_stats
         Toy.css4 Ax1 Toy.estimator1 (@weights_ (Toy.mixture 3) 1)
         (@means_ (Toy.mixture 3) 1) (@covariances_ (Toy.mixture 3) 1)
         Toy.xx Toy.yy Toy.world
       = Done (tt, Toy.world, t)
       /\ nth_error (pick component_of t) 0 = Some "c10a"%string
       /\ nth_error (pick component_of t) 1 = Some "#0072B2"%string.
Proof.
  assert (41 <= length (@CSS4_COLORS Toy.css4)) as H by (vm_compute; lia).
  split; [exact H|].
  destruct (@contour_colors_within_bounds
              Toy.numpy_random (Toy.mixture 3) Toy.scipy_stats Toy.css4
              Ax1 Toy.estimator1 1 (@weights_ (Toy.mixture 3) 1)
              Toy.xx Toy.yy 2 2 Toy.world
              H eq_refl (proj1 toy_grid_shape) (proj2 toy_grid_shape)
              eq_refl eq_refl)
    as (_ & Hlen & _ & Hget & t & Hrun & _ & _ & H0 & Hn & _).
  split; [exact Hlen|]. split.
  { destruct (Hget 0%Z ltac:(lia)) as (c & Hc & _). now exists c. }
  exists t. split; [exact Hrun|]. split.
  - rewrite H0. vm_compute. reflexivity.
  - rewrite (Hn 1) by lia. vm_compute. reflexivity.
Defined.

Lemma bar_chart_shows_weights_above_threshold_witness :
  exists (w' : @World Toy.numpy_random (Toy.mixture 3)) (t : list event),
    @plot_results Toy.numpy_random (Toy.mixture 3) Toy.scipy_stats Toy.css4
      Ax1 Ax2 Toy.estimator1 Toy.xx Toy.yy Toy.world = Done (tt, w', t)
    /\ estimator w' = estimator Toy.world
    /\ pick bar_of t = [(0%Z, 0.5%Q); (1%Z, 0.3%Q); (2%Z, 0.2%Q)].
Proof.
  destruct (@bar_chart_shows_weights_above_threshold
              Toy.numpy_random (Toy.mixture 3) Toy.scipy_stats Toy.css4
              Ax1 Ax2 Toy.estimator1 1 Toy.xx Toy.yy 2 2 Toy.world
              eq_refl (proj1 toy_grid_shape) (proj2 toy_grid_shape)
              ltac:(vm_compute; lia) ltac:(vm_compute; lia))
    as (w' & t & Hrun & Hest & Hbars & _).
  exists w', t. split; [exact Hrun|]. split; [exact Hest|].
  rewrite Hbars. reflexivity.
Defined.

Lemma mesh_computed_once_witness :
  exists (w' : @World Toy.numpy_random (Toy.mixture 3))
         (pre post : list event),
    @main Toy.numpy_random (Toy.mixture 3) Toy.scipy_stats Toy.css4
          10 Toy.world
    = Done (tt, w', pre ++ Meshgrid (fst view_mesh) (snd view_mesh) :: post)
    /\ pick mesh_of pre = [] /\ pick mesh_of post = []
    /\ pick fit_of pre = [tt] /\ pick fit_of post = [tt; tt]
    /\ length (pick contour_grid_of post) = 57.
Proof.
  destruct (@mesh_computed_once Toy.numpy_random (Toy.mixture 3)
              Toy.scipy_stats Toy.css4 2 10 Toy.world
              ltac:(vm_compute; lia) ltac:(vm_compute; reflexivity)
              ltac:(lia))
    as (w' & pre & post & Hrun & M1 & M2 & F1 & _ & F2 & G & _).
  exists w', pre, post. split; [exact Hrun|].
  split; [exact M1|]. split; [exact M2|]. split; [exact F1|].
  split; [exact F2|]. rewrite G. apply repeat_length.
Defined.

Lemma contours_cover_the_grid_witness :
  exists (zz : array2) (zs : list array2) (cs : list string),
    @plot_contours Toy.numpy_random (Toy.mixture 3) Toy.scipy_stats Toy.css4
      Ax1 Toy.estimator1 (@weights_ (Toy.mixture 3) 1)
      (@means_ (Toy.mixture 3) 1) (@covariances_ (Toy.mixture 3) 1)
      Toy.xx Toy.yy Toy.world
    = Done (tt, Toy.world,
            Contourf Ax1 Toy.xx Toy.yy zz
            :: map (fun zc => Contour Ax1 Toy.xx Toy.yy (fst zc) (snd zc))
                   (combine zs cs))
    /\ has_shape zz 2 2
    /\ length zs = 18 /\ length cs = 18.
Proof.
  destruct (@contours_cover_the_grid
              Toy.numpy_random (Toy.mixture 3) Toy.scipy_stats Toy.css4
              Ax1 Toy.estimator1 1 (@weights_ (Toy.mixture 3) 1)
              Toy.xx Toy.yy 2 2 Toy.world
              eq_refl (proj1 toy_grid_shape) (proj2 toy_grid_shape)
              ltac:(vm_compute; lia) ltac:(vm_compute; lia))
    as (zz & zs & cs & Hrun & Hzz & _ & Hzs & Hcs & _).
  exists zz, zs, cs. split; [exact Hrun|]. split; [exact Hzz|].
  split; [exact Hzs|exact Hcs].
Defined.

(** * More of the script *)

(** ** A run that does not end *)

Section NeverConverging.
Context {NR : NumpyRandom} {SM : SklearnMixture} {SS : ScipyStats}
        {MC : MatplotlibColors}.

Lemma while_not_converged_out_of_fuel (p : BayesianGaussianMixture.t)
    (X : list vec2) (title : string) (g : RandomState) :
  41 <= length CSS4_COLORS ->
  never_converges 18 p X ->
  forall (fuel k : nat),
    while_not_converged fuel
      (redraw Ax1 Ax2 X expected_labels title 0
              (fst view_mesh) (snd view_mesh))
      (drawn_world p X g (S k))
    = OutOfFuel.
Proof.
  intros Hcss Hnever. induction fuel as [|fuel IH]; intros k;
    cbn [while_not_converged]; [reflexivity|].
  unfold get_estimator, get, ret, lift, bind. cbv beta iota.
  cbn [estimator drawn_world]. rewrite converged_attr.
  rewrite (proj2 (Hnever k)). cbv beta iota.
  fold (drawn_world p X g (S k)). unfold drawn_world at 1.
  rewrite (@redraw_done _ _ _ _ p X title Hcss g _ (S k) _ _ eq_refl)
    by (apply Hnever).
  rewrite IH. reflexivity.
Qed.

Lemma run_prior_out_of_fuel (X : list vec2) (title : string) (c : Q)
    (g : RandomState) (a1 a2 : Axes) (fuel : nat) :
  41 <= length CSS4_COLORS ->
  never_converges 18 (run_settings c) X ->
  run_prior fuel X expected_labels title 0 c
    {| np_random := g;
       estimator := {| settings := the_estimator; fitted := None |};
       ax1 := a1; ax2 := a2 |}
  = OutOfFuel.
Proof.
  intros Hcss Hnever.
  destruct (slots_conditions _ (proj1 (Hnever 0)) Hcss) as (_ & Hcov & Hcol).
  destruct view_mesh_shape as [Hx Hy].
  unfold run_prior, subplot, raw_input, estimator_fit, clear, get_estimator,
    get, put, emit, ret, bind.
  cbv beta iota.
  rewrite (init_plots_done _ _ _ _ _ _ _ _ take_label_colors).
  cbv beta iota.
  rewrite (init_plots_done _ _ _ _ _ _ _ _ take_label_colors).
  cbv beta iota.
  cbn [estimator set_axes set_estimator settings fitted np_random ax1 ax2].
  erewrite plot_results_done with (s := nth_fit (run_settings c) X 0);
    [ | reflexivity | exact Hx | exact Hy | exact Hcov | exact Hcol ].
  cbn [set_axes estimator np_random ax1 ax2].
  change {| np_random := g;
            estimator := {| settings := _; fitted := Some _ |};
            ax1 := view_axes; ax2 := bar_axes |}
    with (drawn_world (run_settings c) X g 1).
  rewrite (while_not_converged_out_of_fuel title g Hcss Hnever fuel 0).
  reflexivity.
Qed.

(** The loop of line 148 has no bound of its own: with an estimator that
    never reports convergence the run does not end, whatever the fuel. *)
Theorem run_without_convergence_never_ends (fuel : nat) (w : World) :
  41 <= length CSS4_COLORS ->
  never_converges 18 (run_settings 1) generated_points ->
  main fuel w = OutOfFuel.
Proof.
  intros Hcss Hnever.
  unfold main, np_random_seed, bind, get, put.
  rewrite generate_data_points. cbv beta iota.
  cbn [estimators for_each fst snd]. unfold run_entry, the_title.
  unfold bind, get, put, emit, ret. cbv beta iota.
  cbn [Py.enumerate length seq map combine for_each fst snd].
  unfold bind, ret, set_estimator, set_np_random.
  cbn [np_random estimator ax1 ax2 Z.of_nat].
  rewrite run_prior_out_of_fuel by assumption. reflexivity.
Qed.
End NeverConverging.

(** ** What a run leaves, and the order of its drawings *)

Section FinalState.
Context {NR : NumpyRandom} {SM : SklearnMixture} {SS : ScipyStats}
        {MC : MatplotlibColors}.

Lemma fits_of_run_trace (p : BayesianGaussianMixture.t) (X : list vec2)
    (cs : list string) (n : nat) :
  (forall i, i <= n -> slots_ok 18 (fit_n p X (S i)) = true) ->
  pick fit_of (run_trace p X cs n) = repeat tt (S n).
Proof.
  intros Hslots. rewrite run_trace_split, pick_app.
  destruct (picks_before_mesh X cs) as (_ & _ & ->).
  cbn [pick fit_of].
  destruct (picks_after_mesh p X cs Hslots) as (_ & -> & _). reflexivity.
Qed.

(** When the loop makes [n] turns, [fit] is called [n + 1] times in all,
    every call but the first resuming from what the previous one left, on
    the settings of the entry with [warm_start] set and the concentration
    prior 1; the run leaves that state on the estimator, numpy's global
    generator as seeded on line 16, and the two axes with the limits of
    the last drawing. *)
Theorem run_leaves_warm_started_chain (n fuel : nat) (w : World) :
  41 <= length CSS4_COLORS ->
  converges_after 18 (run_settings 1) generated_points n = true ->
  n < fuel ->
  exists (w' : World) (t : list event),
    main fuel w = Done (tt, w', t)
    /\ pick fit_of t = repeat tt (S n)
    /\ fitted (estimator w')
       = fit_n (settings (estimator w')) generated_points (S n)
    /\ BayesianGaussianMixture.warm_start (settings (estimator w')) = true
    /\ BayesianGaussianMixture.weight_concentration_prior
         (settings (estimator w')) = Some 1%Q
    /\ BayesianGaussianMixture.set_warm_start
         (BayesianGaussianMixture.set_weight_concentration_prior
            the_estimator 1%Q) true
       = settings (estimator w')
    /\ np_random w' = RandomState_seed 1
    /\ ax1 w' = view_axes /\ ax2 w' = bar_axes.
Proof.
  intros Hcss Hconv Hfuel.
  destruct (converges_after_spec _ _ _ _ Hconv) as (_ & Hslots & _).
  exists (final_world (run_settings 1) generated_points n).
  exists (run_trace (run_settings 1) generated_points label_colors n).
  split; [now apply main_done|].
  split; [now apply fits_of_run_trace|].
  repeat split; reflexivity.
Qed.

Lemma marks_init_trace (X : list vec2) (cs : list string) (pt gm : bool) :
  pick mark_of (init_trace Ax1 Ax2 X cs pt gm) = [Scattered].
Proof. destruct pt, gm; reflexivity. Qed.

Lemma marks_bars_trace (ax : axis) (ws : list Q) :
  pick mark_of (bars_trace ax ws) = [].
Proof.
  unfold bars_trace. rewrite pick_flat_map. apply flat_map_nil.
Qed.

Lemma marks_results_trace (s : Fitted) (xx yy : array2) :
  pick mark_of (results_trace Ax1 Ax2 s xx yy) = [Filled].
Proof.
  unfold results_trace, contours_trace.
  rewrite !pick_app, marks_bars_trace.
  cbn [pick mark_of app].
  rewrite pick_none; [reflexivity|].
  intros e He. apply in_map_iff in He. destruct He as (k & <- & _).
  reflexivity.
Qed.

Lemma marks_redraw_trace (X : list vec2) (cs : list string) (s : Fitted) :
  pick mark_of (redraw_trace X cs s) = [Wiped; Scattered; Filled].
Proof.
  unfold redraw_trace. rewrite !pick_app, marks_init_trace,
    marks_results_trace. reflexivity.
Qed.

Lemma marks_run_trace (p : BayesianGaussianMixture.t) (X : list vec2)
    (cs : list string) (n : nat) :
  pick mark_of (run_trace p X cs n) = run_marks n.
Proof.
  unfold run_trace, run_marks. rewrite !pick_app, pick_flat_map.
  rewrite !marks_init_trace, marks_results_trace.
  rewrite (flat_map_ext
             (fun k => pick mark_of (redraw_trace X cs (nth_fit p X k)))
             (fun _ => [Wiped; Scattered; Filled]))
    by (intros k; apply marks_redraw_trace).
  cbn [pick mark_of app]. now rewrite app_nil_r.
Qed.

Lemma drawn_once_per_wipe_loop (n a : nat) (s f : bool) :
  drawn_once_per_wipe s f
    (flat_map (fun _ => [Wiped; Scattered; Filled]) (seq a n)) = true.
Proof.
  revert a s f. induction n as [|n IH]; intros a s f; [reflexivity|].
  cbn [seq flat_map app drawn_once_per_wipe negb andb]. apply IH.
Qed.

(** In a run the first axes are new or cleared before every drawing: the
    data are scattered once and the mixture contour filled at most once
    between two wipes, so drawings never pile up. *)
Theorem every_drawing_on_wiped_axes (n fuel : nat) (w : World) :
  41 <= length CSS4_COLORS ->
  converges_after 18 (run_settings 1) generated_points n = true ->
  n < fuel ->
  exists (w' : World) (t : list event),
    main fuel w = Done (tt, w', t)
    /\ pick mark_of t
       = [Wiped; Scattered; Wiped; Scattered; Filled]
         ++ flat_map (fun _ => [Wiped; Scattered; Filled]) (seq 1 n)
    /\ drawn_once_per_wipe true true (pick mark_of t) = true.
Proof.
  intros Hcss Hconv Hfuel.
  exists (final_world (run_settings 1) generated_points n).
  exists (run_trace (run_settings 1) generated_points label_colors n).
  split; [now apply main_done|].
  rewrite marks_run_trace. split; [reflexivity|].
  unfold run_marks. cbn [app drawn_once_per_wipe negb andb].
  apply drawn_once_per_wipe_loop.
Qed.
End FinalState.

(** ** Errors of the plot functions, bars and contours *)

Section ErrorFacts.
Context {A B : Type}.

Lemma getitem_done_or_index_error (l : list A) (i : Z) :
  (exists a, Py.getitem l i = Done a) \/ Py.getitem l i = Raised IndexError.
Proof.
  unfold Py.getitem.
  destruct ((if (i <? 0)%Z then (i + Py.len l)%Z else i) <? 0)%Z;
    [now right|].
  destruct (nth_error l _) as [a|]; [left; now exists a|now right].
Qed.

Lemma getitem_below_range (l : list A) (i : Z) :
  (i < - Py.len l)%Z -> Py.getitem l i = Raised IndexError.
Proof.
  unfold Py.getitem, Py.len. intros Hi.
  destruct (Z.ltb_spec i 0); [|lia].
  destruct (Z.ltb_spec (i + Z.of_nat (length l)) 0); [reflexivity|lia].
Qed.

(** A comprehension whose items can only fail with [e] fails with [e] as
    soon as one item does. *)
Lemma omap_raised (f : A -> outcome B) (e : exn) (l : list A) :
  (forall x, In x l -> (exists b, f x = Done b) \/ f x = Raised e) ->
  Exists (fun x => f x = Raised e) l ->
  omap f l = Raised e.
Proof.
  intros Hall Hex. induction Hex as [x l Hx|x l Hex IH]; cbn [omap].
  - now rewrite Hx.
  - destruct (Hall x (or_introl eq_refl)) as [[b Hb]|Hr].
    + rewrite Hb. cbn [obind]. rewrite IH; [reflexivity|].
      intros y Hy. apply Hall. now right.
    + now rewrite Hr.
Qed.
End ErrorFacts.

Section PlotErrors.
Context {NR : NumpyRandom} {SM : SklearnMixture} {SS : ScipyStats}
        {MC : MatplotlibColors}.

(** [init_plots] raises IndexError when a label has no colour, that is
    when it lies outside [-6, 6): the palette holds six colours. *)
Theorem init_plots_label_outside_palette (a1 a2 : axis) (X : list vec2)
    (y : list Z) (title : string) (plot_title generate_mesh : bool)
    (w : World) :
  Exists (fun j => (j < - 6 \/ 6 <= j)%Z) y ->
  init_plots a1 a2 X y title plot_title generate_mesh w = Raised IndexError.
Proof.
  intros Hex.
  assert (Py.take colors y = Raised IndexError) as Htake.
  { unfold Py.take. apply omap_raised.
    - intros j _. apply getitem_done_or_index_error.
    - apply Exists_exists in Hex. destruct Hex as (j & Hj & Hout).
      apply Exists_exists. exists j. split; [exact Hj|].
      destruct Hout as [Hlo|Hhi].
      + apply getitem_below_range. exact Hlo.
      + apply getitem_out_of_range. exact Hhi. }
  unfold init_plots, bind, emit, lift. now rewrite Htake.
Qed.

End PlotErrors.

Section BarsAndContours.
Context {NR : NumpyRandom} {SM : SklearnMixture} {SS : ScipyStats}
        {MC : MatplotlibColors}.

Lemma map_fst_enumerate {A : Type} (l : list A) :
  map fst (Py.enumerate l) = map Z.of_nat (seq 0 (length l)).
Proof.
  unfold Py.enumerate.
  assert (forall (a : list Z) (b : list A),
            length a = length b -> map fst (combine a b) = a) as H.
  { induction a as [|x a IH]; intros [|z b] Hl; cbn in *;
      try discriminate; [reflexivity|].
    f_equal. apply IH. now injection Hl. }
  apply H. now rewrite length_map, length_seq.
Qed.

Lemma components_of_results_trace (a1 a2 : axis) (s : Fitted)
    (xx yy : array2) :
  pick component_of (results_trace a1 a2 s xx yy)
  = map (contour_color (new_colors (Py.len (means_ s))))
        (seq 0 (length (means_ s))).
Proof.
  unfold results_trace, contours_trace, bars_trace.
  rewrite !pick_app, pick_flat_map.
  rewrite (flat_map_ext (fun x => pick component_of (bar_events a2 x))
                        (fun _ => [])) by reflexivity.
  rewrite flat_map_nil. cbn [pick component_of app].
  rewrite app_nil_r.
  generalize (seq 0 (length (means_ s))). intros l.
  induction l as [|n l IH]; cbn [map pick]; [reflexivity|].
  cbn [component_contour component_of]. now rewrite IH.
Qed.

Lemma bars_of_results_trace (a1 a2 : axis) (s : Fitted) (xx yy : array2) :
  pick bar_of (results_trace a1 a2 s xx yy) = Py.enumerate (shown_weights s)
  /\ pick text_of (results_trace a1 a2 s xx yy)
     = map (fun kw => (fst kw, (snd kw + 0.007)%Q, Percent1 (snd kw * 100)%Q))
           (Py.enumerate (shown_weights s))
  /\ pick xlim_of (results_trace a1 a2 s xx yy)
     = [(a2, (- 0.6)%Q, (3 * inject_Z n_components - 0.4)%Q)].
Proof.
  destruct (bars_of_contours_trace a1 s xx yy) as [Cb Ct].
  destruct (bars_of_bars_trace a2 (shown_weights s)) as [Bb Bt].
  unfold results_trace. rewrite !pick_app, Cb, Ct, Bb, Bt.
  cbn [pick bar_of text_of app]. rewrite !app_nil_r.
  repeat split; try reflexivity.
  unfold contours_trace, bars_trace. cbn [pick xlim_of app].
  rewrite pick_flat_map.
  rewrite (flat_map_ext (fun x => pick xlim_of (bar_events a2 x))
                        (fun _ => [])) by reflexivity.
  rewrite flat_map_nil, pick_none; [reflexivity|].
  intros e He. apply in_map_iff in He. destruct He as (k & <- & _).
  reflexivity.
Qed.

Lemma shown_weights_none (s : Fitted) :
  (forall q : Q, In q (weights_ s) -> (q <= SMALL_PROBS)%Q) ->
  shown_weights s = [].
Proof.
  intros Hall. unfold shown_weights.
  destruct (filter _ (weights_ s)) as [|q l] eqn:E; [reflexivity|].
  exfalso. assert (In q (filter (fun w => Py.gt w SMALL_PROBS) (weights_ s)))
    as Hin by (rewrite E; now left).
  apply filter_In in Hin. destruct Hin as [Hq Hgt].
  apply gt_spec in Hgt. exact (Qlt_not_le _ _ Hgt (Hall q Hq)).
Qed.

(** [plot_results] draws one component contour for every slot of the
    estimator whatever its weight, and at most one bar per slot; when no
    weight is above [SMALL_PROBS] the bar chart is empty while the
    contours are still drawn. *)
Theorem contour_for_every_slot (a1 a2 : axis) (e : Estimator) (s : Fitted)
    (xx yy : array2) (r c : nat) (w : World) :
  fitted e = Some s ->
  has_shape xx r c -> has_shape yy r c ->
  length (means_ s) <= length (covariances_ s) ->
  length (means_ s) <= S (length (new_colors (Py.len (means_ s)))) ->
  exists (w' : World) (t : list event),
    plot_results a1 a2 e xx yy w = Done (tt, w', t)
    /\ length (pick component_of t) = length (means_ s)
    /\ length (pick bar_of t) <= length (weights_ s)
    /\ ((forall q : Q, In q (weights_ s) -> (q <= SMALL_PROBS)%Q) ->
        pick bar_of t = [] /\ pick text_of t = []).
Proof.
  intros Hfit Hx Hy Hcov Hcol.
  exists (set_axes a2 bar_axes w), (results_trace a1 a2 s xx yy).
  destruct (bars_of_results_trace a1 a2 s xx yy) as (Hbars & Htext & _).
  split; [now apply plot_results_done with (r := r) (c := c)|].
  split; [now rewrite components_of_results_trace, length_map, length_seq|].
  split.
  { rewrite Hbars. unfold Py.enumerate, shown_weights.
    rewrite length_combine, length_map, length_seq, Nat.min_id.
    apply filter_length_le. }
  intros Hall. rewrite Hbars, Htext, (shown_weights_none s Hall).
  split; reflexivity.
Qed.

(** The bars are numbered from 0 in the order of the slots they come
    from, the slots without a bar leaving no gap; the x-range is set once,
    to (-0.6, 3 * n_components - 0.4); and with at most 18 slots every bar
    position lies inside it. *)
Theorem bars_numbered_within_x_range (a1 a2 : axis) (e : Estimator)
    (s : Fitted) (xx yy : array2) (r c : nat) (w : World) :
  fitted e = Some s ->
  has_shape xx r c -> has_shape yy r c ->
  length (means_ s) <= length (covariances_ s) ->
  length (means_ s) <= S (length (new_colors (Py.len (means_ s)))) ->
  length (weights_ s) <= 18 ->
  exists (w' : World) (t : list event),
    plot_results a1 a2 e xx yy w = Done (tt, w', t)
    /\ map fst (pick bar_of t)
       = map Z.of_nat (seq 0 (length (pick bar_of t)))
    /\ map snd (pick bar_of t)
       = filter (fun q => Py.gt q SMALL_PROBS) (weights_ s)
    /\ pick xlim_of t
       = [(a2, (- 0.6)%Q, (3 * inject_Z n_components - 0.4)%Q)]
    /\ (forall (k : Z) (q : Q), In (k, q) (pick bar_of t) ->
          (0 <= k < 18)%Z
          /\ (- 0.6 < inject_Z k)%Q
          /\ (inject_Z k < 3 * inject_Z n_components - 0.4)%Q).
Proof.
  intros Hfit Hx Hy Hcov Hcol Hslots.
  exists (set_axes a2 bar_axes w), (results_trace a1 a2 s xx yy).
  destruct (bars_of_results_trace a1 a2 s xx yy) as (Hbars & _ & Hxlim).
  assert (length (shown_weights s) <= 18) as Hshown.
  { unfold shown_weights.
    pose proof (filter_length_le (fun w0 => Py.gt w0 SMALL_PROBS) (weights_ s)).
    lia. }
  split; [now apply plot_results_done with (r := r) (c := c)|].
  rewrite Hbars. split.
  { rewrite map_fst_enumerate. unfold Py.enumerate.
    now rewrite length_combine, length_map, length_seq, Nat.min_id. }
  split; [apply map_snd_enumerate|]. split; [exact Hxlim|].
  intros k q Hin.
  assert (In k (map fst (Py.enumerate (shown_weights s)))) as Hk.
  { apply in_map_iff. now exists (k, q). }
  rewrite map_fst_enumerate in Hk. apply in_map_iff in Hk.
  destruct Hk as (i & <- & Hi). apply in_seq in Hi.
  split; [lia|]. unfold Qlt. cbn. lia.
Qed.
End BarsAndContours.

(** ** How far the colours go *)

Section StrideFacts.
Context {A : Type}.

Lemma stride_nth (d : A) (l : list A) : forall k s i : nat,
  nth i (Py.stride k (S s) l) d = nth (k + i * S s) l d.
Proof.
  induction l as [|x l IH]; intros k s i; cbn [Py.stride].
  - destruct i; destruct (k + _ * S s); reflexivity.
  - destruct k as [|k'].
    + replace (S s - 1) with s by lia. destruct i as [|i']; [reflexivity|].
      cbn [nth]. rewrite IH.
      replace (0 + S i' * S s) with (S (s + i' * S s)) by lia. reflexivity.
    + rewrite IH. reflexivity.
Qed.

Lemma slice_from_0_nth (d : A) (l : list A) (stop : Z) (s i : nat) :
  (0 <= stop)%Z -> i * S s < Z.to_nat stop ->
  nth i (Py.slice l 0 stop (Z.of_nat (S s))) d = nth (i * S s) l d.
Proof.
  intros Hstop Hi. unfold Py.slice, Py.clip, Py.len.
  destruct (Z.ltb_spec 0 0); [lia|].
  destruct (Z.ltb_spec stop 0); [lia|].
  rewrite Nat2Z.id.
  replace (Z.to_nat (Z.min 0 (Z.of_nat (length l)))) with 0 by lia.
  rewrite skipn_O, stride_nth. cbn [Nat.add].
  destruct (Nat.lt_ge_cases (i * S s) (length l)) as [Hin|Hout].
  - rewrite nth_firstn.
    destruct (Nat.ltb_spec (i * S s)
                (Z.to_nat (Z.min stop (Z.of_nat (length l)) - Z.min 0 (Z.of_nat (length l)))));
      [reflexivity|lia].
  - rewrite !nth_overflow; [reflexivity|lia|].
    rewrite length_firstn. lia.
Qed.
End StrideFacts.

Section ColourBounds.
Context {MC : MatplotlibColors}.

Lemma new_colors_length_quota (m : Z) :
  (6 < m)%Z ->
  length (new_colors m) = 6 + Nat.min (Z.to_nat (m - 7)) named_quota.
Proof.
  intros Hm. rewrite new_colors_length by assumption. f_equal.
  unfold named_quota.
  set (a := Z.to_nat (m - 7)). set (L := length CSS4_COLORS).
  replace (Z.to_nat (4 * (m - 7))) with (4 * a) by (unfold a; lia).
  assert ((4 * a + 3) / 4 = a) as Ha.
  { symmetry. apply (Nat.div_unique (4 * a + 3) 4 a 3); lia. }
  destruct (Nat.le_gt_cases (4 * a) L) as [Hle|Hgt].
  - rewrite Nat.min_l by assumption. rewrite Ha.
    assert (a <= (L + 3) / 4).
    { rewrite <- Ha. apply Nat.Div0.div_le_mono. lia. }
    lia.
  - rewrite (Nat.min_r (4 * a) L) by lia.
    assert ((L + 3) / 4 <= a).
    { rewrite <- Ha. apply Nat.Div0.div_le_mono. lia. }
    lia.
Qed.

Lemma colour_lookups_succeed_up_to_quota (m n : Z) :
  (m <= 7 + Z.of_nat named_quota)%Z -> (0 <= n < m)%Z ->
  exists c, Py.getitem (new_colors m) (n - 1) = Done c.
Proof.
  intros Hle Hn.
  apply (@contour_color_found (new_colors m) m n); [| |exact Hn].
  - pose proof (new_colors_nonempty m). unfold Py.len. lia.
  - destruct (Z.le_gt_cases m 6) as [H6|H6].
    + rewrite new_colors_small by assumption. cbn. lia.
    + unfold Py.len. rewrite new_colors_length_quota by lia. lia.
Qed.

Lemma first_colour_out_of_range (m : Z) :
  (7 + Z.of_nat named_quota < m)%Z ->
  Py.getitem (new_colors m) (Z.of_nat (7 + named_quota) - 1)
  = Raised IndexError.
Proof.
  intros Hgt. apply getitem_out_of_range. unfold Py.len.
  rewrite new_colors_length_quota by lia. lia.
Qed.

(** The extension of lines 29-31 keeps the six palette colours first and
    appends every fourth name of the table from its start: entry [6 + i]
    is name [4 * i], for [i] below [m - 7]. *)
Theorem extension_takes_every_fourth_name (m : Z) (i : nat) :
  (6 < m)%Z -> (Z.of_nat i < m - 7)%Z ->
  firstn 6 (new_colors m) = colors
  /\ nth (6 + i) (new_colors m) EmptyString
     = nth (4 * i) CSS4_COLORS EmptyString.
Proof.
  intros Hm Hi. unfold new_colors. change (Py.len colors) with 6%Z.
  destruct (Z.ltb_spec 6 m); [|lia]. unfold Py.append. split.
  - reflexivity.
  - rewrite app_nth2 by (cbn; lia).
    change (length colors) with 6. replace (6 + i - 6) with i by lia.
    rewrite (@slice_from_0_nth _ EmptyString CSS4_COLORS
               (4 * (m - 6 - 1))%Z 3 i) by lia.
    f_equal. lia.
Qed.
End ColourBounds.

Section TooManyComponents.
Context {NR : NumpyRandom} {SM : SklearnMixture} {SS : ScipyStats}
        {MC : MatplotlibColors}.

Lemma bind_raised {A B : Type} (m : M A) (k : A -> M B) (w w1 : World)
    (a : A) (t1 : list event) (e : exn) :
  m w = Done (a, w1, t1) -> k a w1 = Raised e -> bind m k w = Raised e.
Proof.
  intros H1 H2. unfold bind. now rewrite H1, H2.
Qed.

Lemma for_each_raised {A : Type} (l1 l2 : list A) (z : A)
    (body : A -> M unit) (f : A -> list event) (e : exn) (w : World) :
  (forall x, In x l1 -> body x w = Done (tt, w, f x)) ->
  body z w = Raised e ->
  for_each (l1 ++ z :: l2) body w = Raised e.
Proof.
  induction l1 as [|x l1 IH]; intros Hok Hz; cbn [app for_each].
  - unfold bind. now rewrite Hz.
  - apply bind_raised with (a := tt) (w1 := w) (t1 := f x).
    + apply Hok. now left.
    + apply IH; [|exact Hz]. intros y Hy. apply Hok. now right.
Qed.

(** With more than [7 + named_quota] components (44 for a table of 148
    names) the table runs out: [plot_contours] raises IndexError. *)
Theorem plot_contours_too_many_components (ax : axis) (e : Estimator)
    (s : Fitted) (ws : list Q) (xx yy : array2) (r c : nat) (w : World) :
  fitted e = Some s ->
  has_shape xx r c -> has_shape yy r c ->
  length (means_ s) <= length (covariances_ s) ->
  7 + named_quota < length (means_ s) ->
  plot_contours ax e ws (means_ s) (covariances_ s) xx yy w
  = Raised IndexError.
Proof.
  intros Hfit Hx Hy Hcov Hmany.
  destruct (reshape_scores (score_samples s) Hx Hy) as [Hc Hmix].
  set (n0 := 7 + named_quota).
  assert (length (new_colors (Py.len (means_ s))) = 6 + named_quota) as Hlen.
  { rewrite new_colors_length_quota by (unfold Py.len; lia).
    unfold Py.len. lia. }
  unfold plot_contours.
  apply bind_raised with (a := combine (concat xx) (concat yy)) (w1 := w)
                         (t1 := []).
  { unfold lift. now rewrite Hc. }
  apply bind_raised with (a := map (score_samples s)
                                   (combine (concat xx) (concat yy)))
                         (w1 := w) (t1 := []).
  { unfold lift. rewrite (omap_done _ (score_samples s)); [reflexivity|].
    intros x _. unfold score_fn_dpgmm, attr. now rewrite Hfit. }
  apply bind_raised with (a := grid_map (score_samples s) xx yy) (w1 := w)
                         (t1 := []).
  { unfold lift. now rewrite Hmix. }
  apply bind_raised with (a := tt) (w1 := w) (t1 := [Contourf ax xx yy
                                   (grid_map (score_samples s) xx yy)]).
  { reflexivity. }
  rewrite range_len.
  replace (length (means_ s)) with (n0 + S (length (means_ s) - S n0))
    by lia.
  rewrite seq_app, map_app. cbn [seq map Nat.add].
  assert (forall n : nat, n < length (means_ s) ->
            forall (k : array2 -> M unit),
              bind (lift (Py.c_ (Py.ravel xx) (Py.ravel yy)))
                (fun pts =>
                 bind
                   (lift
                      (omap
                         (fun x =>
                          obind (Py.getitem (means_ s) (Z.of_nat n))
                            (fun mean_n =>
                             obind (Py.getitem (covariances_ s) (Z.of_nat n))
                               (fun covar_n =>
                                Done (score_fn_mvn x mean_n covar_n)))) pts))
                   (fun zs =>
                    bind (lift (Py.reshape zs (Py.shape xx))) k)) w
              = k (grid_map
                     (fun x => score_fn_mvn x (nth n (means_ s) (0%Q, 0%Q))
                                 (nth n (covariances_ s)
                                      ((0%Q, 0%Q), (0%Q, 0%Q)))) xx yy) w)
    as Hscores.
  { intros n Hn k.
    set (mean_n := nth n (means_ s) (0%Q, 0%Q)).
    set (covar_n := nth n (covariances_ s) ((0%Q, 0%Q), (0%Q, 0%Q))).
    destruct (reshape_scores (fun x => score_fn_mvn x mean_n covar_n) Hx Hy)
      as [_ Hcomp].
    unfold bind, lift. rewrite Hc.
    rewrite (omap_done _ (fun x => score_fn_mvn x mean_n covar_n)).
    2:{ intros x _.
        rewrite (getitem_nth _ (0%Q, 0%Q)) by lia. cbn [obind].
        rewrite (getitem_nth _ ((0%Q, 0%Q), (0%Q, 0%Q))) by lia.
        reflexivity. }
    rewrite Hcomp. destruct (k _ w) as [[[u w2] t2]| |]; reflexivity. }
  apply for_each_raised
    with (f := fun z => [component_contour ax s xx yy (Z.to_nat z)]).
  - intros z Hz. apply in_map_iff in Hz. destruct Hz as (n & <- & Hn).
    apply in_seq in Hn. rewrite Hscores by lia.
    rewrite Nat2Z.id. unfold bind, lift, emit.
    rewrite getitem_contour_color by lia. reflexivity.
  - rewrite Hscores by lia. unfold bind, lift.
    replace (Z.of_nat n0 - 1)%Z with (Z.of_nat (7 + named_quota) - 1)%Z
      by reflexivity.
    rewrite first_colour_out_of_range; [reflexivity|].
    unfold Py.len. lia.
Qed.
End TooManyComponents.

Section MoreOfTheRun.
Context {NR : NumpyRandom} {SM : SklearnMixture} {SS : ScipyStats}
        {MC : MatplotlibColors}.

(** With at most [7 + named_quota] components [plot_contours] returns and
    draws every component, component [n] in the colour at index [n - 1]
    of the extended list. *)
Theorem plot_contours_up_to_quota (ax : axis) (e : Estimator) (s : Fitted)
    (ws : list Q) (xx yy : array2) (r c : nat) (w : World) :
  fitted e = Some s ->
  has_shape xx r c -> has_shape yy r c ->
  length (means_ s) <= length (covariances_ s) ->
  length (means_ s) <= 7 + named_quota ->
  exists t : list event,
    plot_contours ax e ws (means_ s) (covariances_ s) xx yy w
    = Done (tt, w, t)
    /\ length (pick component_of t) = length (means_ s)
    /\ (forall n : nat, n < length (means_ s) ->
          Py.getitem (new_colors (Py.len (means_ s))) (Z.of_nat n - 1)
          = Done (nth n (pick component_of t) EmptyString)).
Proof.
  intros Hfit Hx Hy Hcov Hquota.
  assert (length (means_ s)
          <= S (length (new_colors (Py.len (means_ s))))) as Hcol.
  { destruct (Nat.le_gt_cases (length (means_ s)) 6) as [H6|H6].
    - pose proof (new_colors_nonempty (Py.len (means_ s))). lia.
    - rewrite new_colors_length_quota by (unfold Py.len; lia).
      unfold Py.len. lia. }
  exists (contours_trace ax s xx yy).
  assert (pick component_of (contours_trace ax s xx yy)
          = map (contour_color (new_colors (Py.len (means_ s))))
                (seq 0 (length (means_ s)))) as Hpick.
  { unfold contours_trace. cbn [pick component_of].
    generalize (seq 0 (length (means_ s))). intros l.
    induction l as [|n l IH]; cbn [map pick]; [reflexivity|].
    cbn [component_contour component_of]. now rewrite IH. }
  split; [now apply plot_contours_done with (r := r) (c := c)|].
  rewrite Hpick. split; [now rewrite length_map, length_seq|].
  intros n Hn.
  rewrite (nth_indep _ EmptyString
             (contour_color (new_colors (Py.len (means_ s))) 0))
    by (now rewrite length_map, length_seq).
  rewrite (map_nth (contour_color (new_colors (Py.len (means_ s))))),
    seq_nth by assumption.
  cbn [Nat.add]. apply getitem_contour_color.
  - pose proof (new_colors_nonempty (Py.len (means_ s))). lia.
  - lia.
Qed.

Lemma scatters_init_trace (X : list vec2) (cs : list string) (pt gm : bool) :
  pick scatter_of (init_trace Ax1 Ax2 X cs pt gm)
  = [(map fst X, map snd X, cs)].
Proof. destruct pt, gm; reflexivity. Qed.

Lemma scatters_results_trace (s : Fitted) (xx yy : array2) :
  pick scatter_of (results_trace Ax1 Ax2 s xx yy) = [].
Proof.
  unfold results_trace, contours_trace, bars_trace.
  rewrite !pick_app, pick_flat_map.
  rewrite (flat_map_ext (fun x => pick scatter_of (bar_events Ax2 x))
                        (fun _ => [])) by reflexivity.
  rewrite flat_map_nil. cbn [pick scatter_of app].
  rewrite pick_none; [reflexivity|].
  intros e He. apply in_map_iff in He. destruct He as (k & <- & _).
  reflexivity.
Qed.

Lemma scatters_run_trace (p : BayesianGaussianMixture.t) (X : list vec2)
    (cs : list string) (n : nat) :
  pick scatter_of (run_trace p X cs n)
  = repeat (map fst X, map snd X, cs) (n + 2).
Proof.
  unfold run_trace. rewrite !pick_app, pick_flat_map.
  rewrite !scatters_init_trace, scatters_results_trace.
  rewrite (flat_map_ext
             (fun k => pick scatter_of (redraw_trace X cs (nth_fit p X k)))
             (fun _ => [(map fst X, map snd X, cs)])).
  2:{ intros k. unfold redraw_trace.
      rewrite !pick_app, scatters_init_trace, scatters_results_trace.
      reflexivity. }
  cbn [pick scatter_of app]. rewrite app_nil_r.
  rewrite flat_map_single, map_const, length_seq.
  replace (n + 2) with (S (S n)) by lia. reflexivity.
Qed.
(** Every drawing of a run scatters the same data: the 2300 generated
    points, each in the colour of its label, [n + 2] times in all. *)
Theorem same_scatter_at_every_render (n fuel : nat) (w : World) :
  draws_have_size ->
  41 <= length CSS4_COLORS ->
  converges_after 18 (run_settings 1) generated_points n = true ->
  n < fuel ->
  exists (w' : World) (t : list event),
    main fuel w = Done (tt, w', t)
    /\ pick scatter_of t
       = repeat (map fst generated_points, map snd generated_points,
                 label_colors) (n + 2)
    /\ length generated_points = 2300
    /\ length label_colors = 2300
    /\ (forall i : nat, i < 2300 ->
          Py.getitem colors (nth i expected_labels 0%Z)
          = Done (nth i label_colors EmptyString)).
Proof.
  intros Hsize Hcss Hconv Hfuel.
  exists (final_world (run_settings 1) generated_points n).
  exists (run_trace (run_settings 1) generated_points label_colors n).
  assert (length expected_labels = 2300) as Hy.
  { unfold expected_labels. rewrite !length_app, !repeat_length.
    reflexivity. }
  split; [now apply main_done|].
  split; [apply scatters_run_trace|]. split.
  { destruct (generated_blocks random_state w Hsize)
      as (b0 & b1 & b2 & b3 & b4 & b5 & Hg & L0 & L1 & L2 & L3 & L4 & L5).
    rewrite generate_data_points in Hg.
    injection Hg as ->. cbn [concat].
    rewrite !length_app, L0, L1, L2, L3, L4, L5. reflexivity. }
  split; [unfold label_colors; now rewrite length_map|].
  intros i Hi.
  assert (nth_error label_colors i = Some (nth i label_colors EmptyString))
    as Hnth.
  { apply nth_error_nth'. unfold label_colors. rewrite length_map. lia. }
  assert (nth_error expected_labels i = Some (nth i expected_labels 0%Z))
    as Hlab by (apply nth_error_nth'; lia).
  pose proof take_label_colors as Htake. unfold Py.take in Htake.
  revert Htake Hnth Hlab.
  generalize (nth i expected_labels 0%Z) (nth i label_colors EmptyString).
  generalize label_colors expected_labels i. clear.
  intros cs ys. revert cs.
  induction ys as [|y ys IH]; intros cs i j c Htake Hc Hj.
  - destruct i; discriminate Hj.
  - cbn [omap] in Htake.
    destruct (Py.getitem colors y) as [c0| |] eqn:E; try discriminate Htake.
    cbn [obind] in Htake.
    destruct (omap (Py.getitem colors) ys) as [cs0| |] eqn:E0;
      try discriminate Htake.
    cbn [obind] in Htake. injection Htake as <-.
    destruct i as [|i]; cbn [nth_error] in Hc, Hj.
    + injection Hc as <-. injection Hj as <-. exact E.
    + now apply (IH cs0 i).
Qed.
End MoreOfTheRun.

(** ** The further theorems at work on the small instances *)

Lemma run_without_convergence_never_ends_witness :
  @main Toy.numpy_random Toy.restless Toy.scipy_stats Toy.css4 1000
        (Toy.world_of Toy.restless)
  = OutOfFuel.
Proof.
  apply (@run_without_convergence_never_ends Toy.numpy_random Toy.restless
           Toy.scipy_stats Toy.css4).
  - vm_compute. lia.
  - intros k. split; reflexivity.
Defined.

Lemma run_leaves_warm_started_chain_witness :
  exists (w' : @World Toy.numpy_random (Toy.mixture 3)) (t : list event),
    @main Toy.numpy_random (Toy.mixture 3) Toy.scipy_stats Toy.css4
          10 Toy.world = Done (tt, w', t)
    /\ pick fit_of t = [tt; tt; tt]
    /\ fitted (estimator w') = Some 3.
Proof.
  destruct (@run_leaves_warm_started_chain Toy.numpy_random (Toy.mixture 3)
              Toy.scipy_stats Toy.css4 2 10 Toy.world
              ltac:(vm_compute; lia) ltac:(vm_compute; reflexivity)
              ltac:(lia))
    as (w' & t & Hrun & Hfits & Hchain & _).
  exists w', t. split; [exact Hrun|]. split; [exact Hfits|].
  rewrite Hchain. reflexivity.
Defined.

Lemma every_drawing_on_wiped_axes_witness :
  exists (w' : @World Toy.numpy_random (Toy.mixture 3)) (t : list event),
    @main Toy.numpy_random (Toy.mixture 3) Toy.scipy_stats Toy.css4
          10 Toy.world = Done (tt, w', t)
    /\ drawn_once_per_wipe true true (pick mark_of t) = true.
Proof.
  destruct (@every_drawing_on_wiped_axes Toy.numpy_random (Toy.mixture 3)
              Toy.scipy_stats Toy.css4 2 10 Toy.world
              ltac:(vm_compute; lia) ltac:(vm_compute; reflexivity)
              ltac:(lia))
    as (w' & t & Hrun & _ & Hok).
  exists w', t. split; [exact Hrun|exact Hok].
Defined.

Lemma init_plots_label_outside_palette_witness :
  @init_plots Toy.numpy_random (Toy.mixture 3) Ax1 Ax2
    [(0, 0); (1, 1)]%Q [0; 6]%Z EmptyString true false Toy.world
  = Raised IndexError.
Proof.
  apply (@init_plots_label_outside_palette Toy.numpy_random (Toy.mixture 3)).
  apply Exists_cons_tl. apply Exists_cons_hd. right. lia.
Defined.

Lemma contour_for_every_slot_witness :
  exists (w' : @World Toy.numpy_random (Toy.mixture 3)) (t : list event),
    @plot_results Toy.numpy_random (Toy.mixture 3) Toy.scipy_stats Toy.css4
      Ax1 Ax2 Toy.estimator1 Toy.xx Toy.yy Toy.world = Done (tt, w', t)
    /\ length (pick component_of t) = 18
    /\ length (pick bar_of t) <= 18.
Proof.
  destruct (@contour_for_every_slot
              Toy.numpy_random (Toy.mixture 3) Toy.scipy_stats Toy.css4
              Ax1 Ax2 Toy.estimator1 1 Toy.xx Toy.yy 2 2 Toy.world
              eq_refl (proj1 toy_grid_shape) (proj2 toy_grid_shape)
              ltac:(vm_compute; lia) ltac:(vm_compute; lia))
    as (w' & t & Hrun & Hcomp & Hbars & _).
  exists w', t. split; [exact Hrun|]. split; [exact Hcomp|exact Hbars].
Defined.

Lemma bars_numbered_within_x_range_witness :
  exists (w' : @World Toy.numpy_random (Toy.mixture 3)) (t : list event),
    @plot_results Toy.numpy_random (Toy.mixture 3) Toy.scipy_stats Toy.css4
      Ax1 Ax2 Toy.estimator1 Toy.xx Toy.yy Toy.world = Done (tt, w', t)
    /\ map snd (pick bar_of t) = [0.5; 0.3; 0.2]%Q
    /\ map fst (pick bar_of t)
       = map Z.of_nat (seq 0 (length (pick bar_of t))).
Proof.
  destruct (@bars_numbered_within_x_range
              Toy.numpy_random (Toy.mixture 3) Toy.scipy_stats Toy.css4
              Ax1 Ax2 Toy.estimator1 1 Toy.xx Toy.yy 2 2 Toy.world
              eq_refl (proj1 toy_grid_shape) (proj2 toy_grid_shape)
              ltac:(vm_compute; lia) ltac:(vm_compute; lia)
              ltac:(vm_compute; lia))
    as (w' & t & Hrun & Hfst & Hsnd & _).
  exists w', t. split; [exact Hrun|]. split; [|exact Hfst].
  rewrite Hsnd. reflexivity.
Defined.

Lemma extension_takes_every_fourth_name_witness :
  nth 9 (@new_colors Toy.css4 18) EmptyString = "c03a"%string.
Proof.
  destruct (@extension_takes_every_fourth_name Toy.css4 18%Z 3
              ltac:(lia) ltac:(lia)) as [_ H].
  cbn [Nat.add] in H. rewrite H. reflexivity.
Defined.

Lemma plot_contours_too_many_components_witness :
  @plot_contours Toy.numpy_random Toy.crowded Toy.scipy_stats Toy.css4
    Ax1 Toy.estimator45 (@weights_ Toy.crowded 1)
    (@means_ Toy.crowded 1) (@covariances_ Toy.crowded 1)
    Toy.xx Toy.yy (Toy.world_of Toy.crowded)
  = Raised IndexError.
Proof.
  apply (@plot_contours_too_many_components
           Toy.numpy_random Toy.crowded Toy.scipy_stats Toy.css4
           Ax1 Toy.estimator45 1 (@weights_ Toy.crowded 1)
           Toy.xx Toy.yy 2 2 (Toy.world_of Toy.crowded)
           eq_refl (proj1 toy_grid_shape) (proj2 toy_grid_shape)).
  - vm_compute. lia.
  - vm_compute. lia.
Defined.

Lemma plot_contours_up_to_quota_witness :
  exists t : list event,
    @plot_contours Toy.numpy_random (Toy.mixture 3) Toy.scipy_stats Toy.css4
      Ax1 Toy.estimator1 (@weights_ (Toy.mixture 3) 1)
      (@means_ (Toy.mixture 3) 1) (@covariances_ (Toy.mixture 3) 1)
      Toy.xx Toy.yy Toy.world
    = Done (tt, Toy.world, t)
    /\ length (pick component_of t) = 18.
Proof.
  destruct (@plot_contours_up_to_quota
              Toy.numpy_random (Toy.mixture 3) Toy.scipy_stats Toy.css4
              Ax1 Toy.estimator1 1 (@weights_ (Toy.mixture 3) 1)
              Toy.xx Toy.yy 2 2 Toy.world
              eq_refl (proj1 toy_grid_shape) (proj2 toy_grid_shape)
              ltac:(vm_compute; lia) ltac:(vm_compute; lia))
    as (t & Hrun & Hlen & _).
  exists t. split; [exact Hrun|exact Hlen].
Defined.

Lemma same_scatter_at_every_render_witness :
  exists (w' : @World Toy.numpy_random (Toy.mixture 3)) (t : list event),
    @main Toy.numpy_random (Toy.mixture 3) Toy.scipy_stats Toy.css4
          10 Toy.world = Done (tt, w', t)
    /\ length (pick scatter_of t) = 4.
Proof.
  destruct (@same_scatter_at_every_render Toy.numpy_random (Toy.mixture 3)
              Toy.scipy_stats Toy.css4 2 10 Toy.world
              toy_draws_have_size
              ltac:(vm_compute; lia) ltac:(vm_compute; reflexivity)
              ltac:(lia))
    as (w' & t & Hrun & Hscatter & _).
  exists w', t. split; [exact Hrun|].
  rewrite Hscatter. apply repeat_length.
Defined.
